(** * Wind-tunnel mesh pre-processing and display helpers

    A shallow embedding of [windtunnel/pre_processing.py] and of the
    computational parts of [windtunnel/display.py].

    Conventions of the embedding:
    - Python floats are read as exact rationals ([Q]); equalities between
      computed coordinates are stated with [==] ([Qeq]).
    - Python exceptions are values of [exn]; a function that may raise
      returns a [result].
    - pyvista meshes are objects on a heap; the pyvista filters used by the
      code ([scale], [translate]) are called with their default
      [inplace=False] and therefore allocate a new object.
    - a character of a string is a code point below 256. *)

From Stdlib Require Import QArith Qminmax Qround Lqa Ascii.
From stdpp Require Import gmap strings list.

Open Scope Q_scope.

(** ** Exceptions *)

Inductive exn :=
| ZeroDivisionError
| ValueError (msg : string)
| IndexError
| StopIteration
| FileNotFoundError
| InvalidReference. (* a name without object: not reachable from Python *)

Inductive result (A : Type) :=
| Ok (a : A)
| Raise (e : exn).
Arguments Ok {A} a.
Arguments Raise {A} e.

#[global] Instance result_ret : MRet result := @Ok.
#[global] Instance result_bind : MBind result := λ A B f r,
  match r with
  | Ok a => f a
  | Raise e => Raise e
  end.

(** Python's true division [a / b]. *)
Definition py_div (a b : Q) : result Q :=
  if Qeq_bool b 0 then Raise ZeroDivisionError else Ok (a / b).

(** ** Meshes (pyvista.PolyData) *)

Definition point : Type := Q * Q * Q.

(** [cells] holds, per face, the indices of its points.  pyvista's flat
    [faces] array prefixes every face with its number of vertices. *)
Record PolyData := {
  points : list point;
  cells : list (list nat)
}.

Definition n_cells (mesh : PolyData) : nat := length (cells mesh).

Definition faces (mesh : PolyData) : list nat :=
  flat_map (λ c, length c :: c) (cells mesh).

Record BoundsTuple := {
  xmin : Q; xmax : Q;
  ymin : Q; ymax : Q;
  zmin : Q; zmax : Q
}.

(** Smallest and largest entry of a coordinate list.  For a data set
    without points VTK reports the uninitialised interval [1, -1]. *)
Definition coord_min (l : list Q) : Q :=
  match l with
  | [] => 1
  | x :: l' => fold_left Qmin l' x
  end.

Definition coord_max (l : list Q) : Q :=
  match l with
  | [] => -1
  | x :: l' => fold_left Qmax l' x
  end.

Definition xs (mesh : PolyData) : list Q := map (λ p : point, p.1.1) (points mesh).
Definition ys (mesh : PolyData) : list Q := map (λ p : point, p.1.2) (points mesh).
Definition zs (mesh : PolyData) : list Q := map (λ p : point, p.2) (points mesh).

(** [mesh.bounds]: entries 0..5 are [xmin, xmax, ymin, ymax, zmin, zmax]. *)
Definition bounds (mesh : PolyData) : BoundsTuple :=
  {| xmin := coord_min (xs mesh); xmax := coord_max (xs mesh);
     ymin := coord_min (ys mesh); ymax := coord_max (ys mesh);
     zmin := coord_min (zs mesh); zmax := coord_max (zs mesh) |}.

(** Extents of the bounding box along the three axes. *)
Definition x_extent (mesh : PolyData) : Q := xmax (bounds mesh) - xmin (bounds mesh).
Definition y_extent (mesh : PolyData) : Q := ymax (bounds mesh) - ymin (bounds mesh).
Definition z_extent (mesh : PolyData) : Q := zmax (bounds mesh) - zmin (bounds mesh).

(** What [mesh.scale(f)] and [mesh.translate(v)] do to the points. *)
Definition scale_points (f : Q) (mesh : PolyData) : PolyData :=
  {| points := map (λ p : point, (f * p.1.1, f * p.1.2, f * p.2)) (points mesh);
     cells := cells mesh |}.

Definition translate_points (v : point) (mesh : PolyData) : PolyData :=
  {| points := map (λ p : point, (p.1.1 + v.1.1, p.1.2 + v.1.2, p.2 + v.2)) (points mesh);
     cells := cells mesh |}.

(** ** Stateful computations that may raise

    [io S A]: a computation on a state [S]; an exception leaves the state as
    it was when it was raised. *)

Definition io (S A : Type) : Type := S → result A * S.

#[global] Instance io_ret {S} : MRet (io S) := λ A a s, (Ok a, s).
#[global] Instance io_bind {S} : MBind (io S) := λ A B f c s,
  match c s with
  | (Ok a, s') => f a s'
  | (Raise e, s') => (Raise e, s')
  end.

Definition lift {S A} (r : result A) : io S A := λ s, (r, s).

(** ** The heap of mesh objects *)

Abbreviation loc := nat (only parsing).
Abbreviation heap := (list PolyData) (only parsing).
Abbreviation py := (io (list PolyData)) (only parsing).

Definition deref (l : loc) : py PolyData := λ h,
  match h !! l with
  | Some m => (Ok m, h)
  | None => (Raise InvalidReference, h)
  end.

Definition new (m : PolyData) : py loc := λ h, (Ok (length h), h ++ [m]).

(** [mesh.scale(xyz)] and [mesh.translate(xyz)], both with [inplace=False]. *)
Definition pv_scale (mesh : loc) (xyz : Q) : py loc :=
  m ← deref mesh; new (scale_points xyz m).

Definition pv_translate (mesh : loc) (xyz : point) : py loc :=
  m ← deref mesh; new (translate_points xyz m).

(** ** pre_processing.py *)

Definition NUM_DECIMATION_CELLS : Q := 5000.

Definition _get_scaling_factor (mesh : PolyData) (max_dimensions : Q * Q * Q)
  : result Q :=
  let x_dimension := xmax (bounds mesh) - xmin (bounds mesh) in
  let y_dimension := ymax (bounds mesh) - ymin (bounds mesh) in
  let z_dimension := zmax (bounds mesh) - zmin (bounds mesh) in
  scaling_factor_x ← py_div max_dimensions.1.1 x_dimension;
  scaling_factor_y ← py_div max_dimensions.1.2 y_dimension;
  scaling_factor_z ← py_div max_dimensions.2 z_dimension;
  Ok (Qmin (Qmin scaling_factor_x scaling_factor_y) scaling_factor_z).

Definition normalize_mesh (mesh : loc) (max_dimensions : Q * Q * Q)
  : py (loc * Q) :=
  m ← deref mesh;
  scaling_factor ← lift (_get_scaling_factor m max_dimensions);
  mesh ← pv_scale mesh scaling_factor;
  mret (mesh, scaling_factor).

Definition move_mesh_to_origin (mesh : loc) : py (loc * point) :=
  m ← deref mesh;
  let z_displace := zmin (bounds m) in
  let y_displace := (ymin (bounds m) + ymax (bounds m)) / 2 in
  let x_displace := (xmin (bounds m) + xmax (bounds m)) / 2 in
  let displace_vector : point := (- x_displace, - y_displace, - z_displace) in
  mesh ← pv_translate mesh displace_vector;
  mret (mesh, displace_vector).

Definition compute_object_length (mesh : PolyData) : Q :=
  xmax (bounds mesh) - xmin (bounds mesh).

(** What a caller holding [mesh] observes after a call that took the heap
    from [h] to [h']: the object is the same, every returned mesh is new. *)
Definition input_untouched (h h' : heap) (mesh : loc) (m : PolyData)
    (returned : option loc) : Prop :=
  h' !! mesh = Some m ∧
  (∀ (l : loc) (x : PolyData), h !! l = Some x → h' !! l = Some x) ∧
  (∀ mesh', returned = Some mesh' →
     mesh' ≠ mesh ∧ h !! mesh' = None ∧ is_Some (h' !! mesh')).

Definition returned_mesh {A} (r : result (loc * A)) : option loc :=
  match r with
  | Ok (l, _) => Some l
  | Raise _ => None
  end.

(** ** The geometry libraries used by pre_processing.py

    The algorithms behind these operations belong to VTK/pyvista and to
    GEOS/shapely; the code is verified against their interfaces. *)

Class PyVistaFilters := {
  (* mesh.triangulate() *)
  pv_triangulate : PolyData → PolyData;
  (* mesh.decimate(target_reduction) *)
  pv_decimate : PolyData → Q → PolyData
}.

Class Shapely := {
  geometry : Type;
  (* shapely.Polygon(coordinates) *)
  Polygon : list (Q * Q) → geometry;
  (* shapely.union_all(geometries) *)
  union_all : list geometry → geometry;
  (* shapely.intersection(a, b) *)
  intersection : geometry → geometry → geometry;
  (* geometry.area *)
  area : geometry → Q
}.

(** The mesh invariant: faces refer to existing points. *)
Definition valid_faces (mesh : PolyData) : Prop :=
  Forall (Forall (λ i, (i < length (points mesh))%nat)) (cells mesh).

(** What the code relies on from the pyvista filters: they return valid
    meshes, and triangulation keeps the points and leaves triangles only. *)
Record PyVistaLaws `{PyVistaFilters} : Prop := {
  triangulate_points mesh : points (pv_triangulate mesh) = points mesh;
  triangulate_valid mesh : valid_faces mesh → valid_faces (pv_triangulate mesh);
  triangulate_triangles mesh :
    Forall (λ c, length c = 3%nat) (cells (pv_triangulate mesh));
  decimate_valid mesh r : valid_faces mesh → valid_faces (pv_decimate mesh r)
}.

(** Planar area is a measure: non-negative, additive up to the overlap, and
    monotone. *)
Record ShapelyLaws `{Shapely} : Prop := {
  area_nonneg g : 0 <= area g;
  area_union_nil : area (union_all []) == 0;
  area_union_cons g l :
    area (union_all (g :: l))
    == area g + area (union_all l) - area (intersection g (union_all l));
  area_intersection_mono a b l :
    b ∈ l → area (intersection a b) <= area (intersection a (union_all l))
}.

Definition dot (u v : point) : Q := u.1.1 * v.1.1 + u.1.2 * v.1.2 + u.2 * v.2.

(** [mesh.project_points_to_plane(origin=(0, 0, 0), normal=normal)] *)
Definition project_points_to_plane (normal : point) (mesh : PolyData) : PolyData :=
  {| points := map (λ p : point,
                 let t := dot normal p in
                 (p.1.1 - t * normal.1.1, p.1.2 - t * normal.1.2,
                  p.2 - t * normal.2)) (points mesh);
     cells := cells mesh |}.

(** [mesh.regular_faces]: the faces without their size prefix, provided they
    all have the same size. *)
Definition regular_faces (mesh : PolyData) : result (list (list nat)) :=
  match cells mesh with
  | [] => Ok []
  | c :: cs =>
    if forallb (λ c', Nat.eqb (length c') (length c)) cs
    then Ok (c :: cs)
    else Raise (ValueError "Expected all cells to be of same size")
  end.

(** numpy indexing [points[tri]] and [coords[:, indices]]. *)
Definition take (pts : list point) (tri : list nat) : result (list point) :=
  mapM (λ i, match pts !! i with
             | Some p => Ok p
             | None => Raise IndexError
             end) tri.

Definition coordinate (i : nat) (p : point) : Q :=
  match i with
  | 0%nat => p.1.1
  | 1%nat => p.1.2
  | _ => p.2
  end.

Definition columns (indices : nat * nat) (pts : list point) : list (Q * Q) :=
  map (λ p, (coordinate indices.1 p, coordinate indices.2 p)) pts.

Section compute_projected_area.
Context `{PyVistaFilters} `{Shapely}.

(** Lines 109-119: the retained coordinates and the plane normal. *)
Definition projection_axes (projection_plane : string)
  : result ((nat * nat) * point) :=
  if decide (projection_plane = "X") then Ok ((1, 2)%nat, (1, 0, 0))
  else if decide (projection_plane = "Y") then Ok ((0, 2)%nat, (0, 1, 0))
  else if decide (projection_plane = "Z") then Ok ((0, 1)%nat, (0, 0, 1))
  else Raise (ValueError "Invalid projection plane. Choose from 'X', 'Y', 'Z'.").

(** Lines 121-125: the mesh handed to the projection. *)
Definition decimation_factor (mesh : PolyData) : result Q :=
  q ← py_div NUM_DECIMATION_CELLS (inject_Z (Z.of_nat (n_cells mesh)));
  Ok (1 - q).

Definition decimated (mesh : PolyData) : result PolyData :=
  decimation_factor ← decimation_factor mesh;
  let mesh :=
    if Qlt_le_dec decimation_factor 1 then pv_triangulate mesh else mesh in
  let mesh := pv_decimate mesh decimation_factor in
  Ok mesh.

(** Lines 127-132: the 2D polygons of the projected triangles. *)
Definition projected_polygons (mesh : PolyData) (projection_plane : string)
  : result (list geometry) :=
  '(indices, normal) ← projection_axes projection_plane;
  mesh ← decimated mesh;
  let projection := project_points_to_plane normal mesh in
  let mesh_2d := projection in
  regular_faces ← regular_faces (pv_triangulate mesh_2d);
  mapM (λ tri,
          pts ← take (points mesh_2d) tri;
          Ok (Polygon (columns indices pts))) regular_faces.

Definition compute_projected_area (mesh : PolyData) (projection_plane : string)
  : result Q :=
  polygons ← projected_polygons mesh projection_plane;
  let merged := union_all polygons in
  Ok (area merged).
End compute_projected_area.

(** ** save_mesh_obj *)

Inductive CellType := TRIANGLE | QUAD | POLYGON.

(** The VTK type of a face follows from its number of vertices. *)
Definition cell_type (c : list nat) : CellType :=
  match length c with
  | 3%nat => TRIANGLE
  | 4%nat => QUAD
  | _ => POLYGON
  end.

(** numpy's [a.reshape((-1, k))] for [k > 0]. *)
Fixpoint rows {A} (n k : nat) (a : list A) : list (list A) :=
  match n with
  | O => []
  | S n' => firstn k a :: rows n' k (skipn k a)
  end.

Definition reshape {A} (a : list A) (k : nat) : result (list (list A)) :=
  if Nat.eqb (length a mod k) 0
  then Ok (rows (length a / k) k a)
  else Raise (ValueError "cannot reshape array").

(** What [trimesh.Trimesh(vertices=..., faces=...)] is built from, and what
    the exporter stores under a path. *)
Record Trimesh := {
  vertices : list point;
  tm_faces : list (list nat)
}.

Definition export_mesh (mesh : Trimesh) (file_obj : string)
  : io (gmap string Trimesh) () :=
  λ fs, (Ok (), <[file_obj := mesh]> fs).

Definition save_mesh_obj (mesh : PolyData) (dest_object_path : string)
  : io (gmap string Trimesh) () :=
  cell ← lift (match cells mesh !! 0%nat with
               | Some c => Ok c
               | None => Raise IndexError
               end);
  let mesh_type := cell_type cell in
  shape_vertices ← lift (match mesh_type with
                         | TRIANGLE => Ok 4%nat
                         | QUAD => Ok 5%nat
                         | _ => Raise (ValueError "Mesh cell type not supported")
                         end);
  faces ← lift (reshape (faces mesh) shape_vertices);
  let trimesh_mesh :=
    {| vertices := points mesh; tm_faces := map (skipn 1) faces |} in
  export_mesh trimesh_mesh dest_object_path.

(** The sum of the individual areas, and what it means for two polygons of
    a list to overlap. *)
Definition total_area `{Shapely} (l : list geometry) : Q :=
  foldr (λ g s, area g + s) 0 l.

Definition overlapping `{Shapely} (l : list geometry) : Prop :=
  ∃ (i j : nat) (a b : geometry),
    (i < j)%nat ∧ l !! i = Some a ∧ l !! j = Some b ∧
    0 < area (intersection a b).

(** * display.py *)

(** ** Wall panels *)

(** The arguments of [pv.Plane(center, direction, i_size, j_size)]. *)
Record Plane := {
  center : point;
  direction : point;
  i_size : Q;
  j_size : Q
}.

Definition _get_x_aligned_rectangle (x y_min y_max z_min z_max : Q) : Plane :=
  let y_mean := (y_min + y_max) / 2 in
  let z_mean := (z_min + z_max) / 2 in
  let y_length := y_max - y_min in
  let z_length := z_max - z_min in
  {| center := (x, y_mean, z_mean); direction := (1, 0, 0);
     i_size := z_length; j_size := y_length |}.

Definition _get_y_aligned_rectangle (y x_min x_max z_min z_max : Q) : Plane :=
  let x_mean := (x_min + x_max) / 2 in
  let z_mean := (z_min + z_max) / 2 in
  let x_length := x_max - x_min in
  let z_length := z_max - z_min in
  {| center := (x_mean, y, z_mean); direction := (0, 1, 0);
     i_size := z_length; j_size := x_length |}.

Definition _get_z_aligned_rectangle (z x_min x_max y_min y_max : Q) : Plane :=
  let x_mean := (x_min + x_max) / 2 in
  let y_mean := (y_min + y_max) / 2 in
  let x_length := x_max - x_min in
  let y_length := y_max - y_min in
  {| center := (x_mean, y_mean, z); direction := (0, 0, 1);
     i_size := x_length; j_size := y_length |}.

(** The tunnel box kept by a [WindTunnelVisualizer]. *)
Record WindTunnelVisualizer := {
  x_min : Q; x_max : Q;
  y_min : Q; y_max : Q;
  z_min : Q; z_max : Q
}.

(** One call of [Plotter.add_mesh]; the plotter is the list of these. *)
Record actor := {
  actor_mesh : Plane;
  actor_color : string;
  actor_opacity : Q;
  actor_show_edges : bool
}.

Definition plt_add_mesh (mesh : Plane) (color : string) (opacity : Q)
    (show_edges : bool) : io (list actor) () :=
  λ plt, (Ok (), plt ++ [{| actor_mesh := mesh; actor_color := color;
                            actor_opacity := opacity;
                            actor_show_edges := show_edges |}]).

Definition _add_walls (self : WindTunnelVisualizer) (opacity : Q)
  : io (list actor) () :=
  let plane := _get_x_aligned_rectangle (x_min self) (y_min self) (y_max self)
                 (z_min self) (z_max self) in
  _ ← plt_add_mesh plane "red" opacity false;
  let plane := _get_x_aligned_rectangle (x_max self) (y_min self) (y_max self)
                 (z_min self) (z_max self) in
  _ ← plt_add_mesh plane "red" opacity true;
  let plane := _get_y_aligned_rectangle (y_min self) (x_min self) (x_max self)
                 (z_min self) (z_max self) in
  _ ← plt_add_mesh plane "green" opacity true;
  let plane := _get_z_aligned_rectangle (z_min self) (x_min self) (x_max self)
                 (y_min self) (y_max self) in
  plt_add_mesh plane "blue" opacity true.

(** A panel on a face of the tunnel box: perpendicular to [a] at [offset],
    centred on the midpoints of the two other dimensions and as large as
    the box is along them. *)
Inductive axis := X_axis | Y_axis | Z_axis.

Definition wall_of (self : WindTunnelVisualizer) (a : axis) (offset : Q)
    (p : Plane) : Prop :=
  let x_mid := (x_min self + x_max self) / 2 in
  let y_mid := (y_min self + y_max self) / 2 in
  let z_mid := (z_min self + z_max self) / 2 in
  match a with
  | X_axis => direction p = (1, 0, 0) ∧ (center p).1.1 == offset ∧
         (center p).1.2 == y_mid ∧ (center p).2 == z_mid ∧
         i_size p == z_max self - z_min self ∧
         j_size p == y_max self - y_min self
  | Y_axis => direction p = (0, 1, 0) ∧ (center p).1.2 == offset ∧
         (center p).1.1 == x_mid ∧ (center p).2 == z_mid ∧
         i_size p == z_max self - z_min self ∧
         j_size p == x_max self - x_min self
  | Z_axis => direction p = (0, 0, 1) ∧ (center p).2 == offset ∧
         (center p).1.1 == x_mid ∧ (center p).1.2 == y_mid ∧
         i_size p == x_max self - x_min self ∧
         j_size p == y_max self - y_min self
  end.

(** ** Force coefficients *)

(** [str.isspace] and [str.lower] on code points below 256. *)
Definition isspace (c : ascii) : bool :=
  let n := nat_of_ascii c in
  (Nat.leb 9 n && Nat.leb n 13) || (Nat.leb 28 n && Nat.leb n 32)
  || Nat.eqb n 133 || Nat.eqb n 160.

Definition lower_char (c : ascii) : ascii :=
  let n := nat_of_ascii c in
  if (Nat.leb 65 n && Nat.leb n 90)
     || (Nat.leb 192 n && Nat.leb n 222 && negb (Nat.eqb n 215))
  then ascii_of_nat (n + 32) else c.

(** [str.lower()] *)
Fixpoint lower (s : string) : string :=
  match s with
  | EmptyString => EmptyString
  | String c s' => String (lower_char c) (lower s')
  end.

(** [str.split()]: the maximal runs of characters that are not white space. *)
Fixpoint split_from (word : string) (s : string) : list string :=
  match s with
  | EmptyString => if decide (word = EmptyString) then [] else [word]
  | String c s' =>
    if isspace c
    then (if decide (word = EmptyString) then split_from EmptyString s'
          else word :: split_from EmptyString s')
    else split_from (word +:+ String c EmptyString) s'
  end.

Definition split (s : string) : list string := split_from EmptyString s.

Definition coeffs_map : gmap string nat :=
  <["moment" := 1%nat]> (<["drag" := 2%nat]> (<["lift" := 3%nat]>
  (<["front lift" := 4%nat]> (<["rear lift" := 5%nat]> ∅)))).

Definition invalid_coefficient (coefficient : string) : string :=
  "Invalid coefficient: " +:+ coefficient +:+
  " must be one of                 (Moment, Drag, Lift, Front Lift, Rear Lift)".

Definition could_not_convert (s : string) : string :=
  "could not convert string to float: " +:+ s.

(** What the function does to the outside: the files it opens and the
    curve it hands to matplotlib. *)
Inductive event :=
| Open (path : string)
| Plot (time coeff : list Q) (label : string).

(** [for _ in range(n): next(file)] *)
Fixpoint skip_lines (n : nat) (file : list string) : result (list string) :=
  match n with
  | O => Ok file
  | S n' =>
    match file with
    | [] => Raise StopIteration
    | _ :: file' => skip_lines n' file'
    end
  end.

Section plot_force_coefficients.
(** Python's [float(s)]; [None] when [s] is not a number. *)
Variable float : string → option Q.

Definition py_float (s : string) : result Q :=
  match float s with
  | Some x => Ok x
  | None => Raise (ValueError (could_not_convert s))
  end.

Definition index (columns : list string) (i : nat) : result string :=
  match columns !! i with
  | Some s => Ok s
  | None => Raise IndexError
  end.

(** The loop over the remaining lines, appending to [time] and [coeff]. *)
Fixpoint read_lines (column : nat) (file : list string) (time coeff : list Q)
  : result (list Q * list Q) :=
  match file with
  | [] => Ok (time, coeff)
  | line :: file' =>
    let columns := split line in
    t ← index columns 0 ≫= py_float;
    c ← index columns column ≫= py_float;
    read_lines column file' (time ++ [t]) (coeff ++ [c])
  end.

Definition open (fs : gmap string (list string)) (path : string)
  : io (list event) (list string) :=
  λ log, match fs !! path with
         | Some file => (Ok file, log ++ [Open path])
         | None => (Raise FileNotFoundError, log)
         end.

Definition plt_plot (time coeff : list Q) (label : string)
  : io (list event) () :=
  λ log, (Ok (), log ++ [Plot time coeff label]).

Definition plot_force_coefficients (fs : gmap string (list string))
    (force_coefficients_file_path : string) (coefficient : string)
  : io (list event) () :=
  let coefficient := lower coefficient in
  column ← lift (match coeffs_map !! coefficient with
                 | Some i => Ok i
                 | None => Raise (ValueError (invalid_coefficient coefficient))
                 end);
  file ← open fs force_coefficients_file_path;
  file ← lift (skip_lines 9 file);
  '(time, coeff) ← lift (read_lines column file [] []);
  plt_plot time coeff coefficient.
End plot_force_coefficients.

(** A data row, as the file format describes it: white-space separated
    columns, the first one the time and column [column] the coefficient. *)
Definition row_reads (float : string → option Q) (column : nat)
    (line : string) (v : Q * Q) : Prop :=
  ∃ s0 sc : string,
    split line !! 0%nat = Some s0 ∧ float s0 = Some v.1 ∧
    split line !! column = Some sc ∧ float sc = Some v.2.

Definition known_coefficients : list (string * nat) :=
  [("moment", 1); ("drag", 2); ("lift", 3); ("front lift", 4);
   ("rear lift", 5)]%nat.

(** * Executable instances of the library interfaces

    They make the model run on concrete meshes and files. *)

(** Fan triangulation of every face; decimation that removes nothing. *)
Fixpoint fan (v0 : nat) (c : list nat) : list (list nat) :=
  match c with
  | a :: c' =>
    match c' with
    | b :: _ => [v0; a; b] :: fan v0 c'
    | [] => []
    end
  | [] => []
  end.

Definition fan_triangulate (mesh : PolyData) : PolyData :=
  {| points := points mesh;
     cells := flat_map (λ c, match c with
                             | v0 :: c' => fan v0 c'
                             | [] => []
                             end) (cells mesh) |}.

Definition fan_filters : PyVistaFilters :=
  {| pv_triangulate := fan_triangulate; pv_decimate := λ mesh _, mesh |}.

(** Planar geometries as sets of lattice points; the area counts them. *)
Definition cross (a b p : Q * Q) : Q :=
  (b.1 - a.1) * (p.2 - a.2) - (b.2 - a.2) * (p.1 - a.1).

Definition edges (coords : list (Q * Q)) : list ((Q * Q) * (Q * Q)) :=
  match coords with
  | [] => []
  | a :: rest => zip coords (rest ++ [a])
  end.

Definition inside (coords : list (Q * Q)) (p : Q * Q) : bool :=
  forallb (λ e, Qle_bool 0 (cross e.1 e.2 p)) (edges coords)
  || forallb (λ e, Qle_bool (cross e.1 e.2 p) 0) (edges coords).

Definition Zrange (lo hi : Z) : list Z := seqZ lo (hi - lo + 1).

Definition lattice_polygon (coords : list (Q * Q)) : gset (Z * Z) :=
  let us := coords.*1 in
  let vs := coords.*2 in
  list_to_set
    (flat_map (λ i,
       flat_map (λ j,
         if inside coords (inject_Z i, inject_Z j) then [(i, j)] else [])
         (Zrange (Qfloor (coord_min vs)) (Qceiling (coord_max vs))))
       (Zrange (Qfloor (coord_min us)) (Qceiling (coord_max us)))).

Definition lattice_shapely : Shapely :=
  {| geometry := gset (Z * Z);
     Polygon := lattice_polygon;
     union_all := union_list;
     intersection := (∩);
     area := λ g, inject_Z (Z.of_nat (size g)) |}.

(** Unsigned or negative decimal numerals such as 12, 0.5 or -3.25. *)
Definition digit (c : ascii) : option Z :=
  let n := nat_of_ascii c in
  if Nat.leb 48 n && Nat.leb n 57 then Some (Z.of_nat n - 48)%Z else None.

Fixpoint decimal_digits (s : string) (num : Z) (den : positive)
    (seen_dot seen_digit : bool) : option Q :=
  match s with
  | EmptyString => if seen_digit then Some (num # den) else None
  | String c s' =>
    if decide (c = "."%char)
    then (if seen_dot then None else decimal_digits s' num den true seen_digit)
    else match digit c with
         | Some d =>
           decimal_digits s' (10 * num + d)%Z
             (if seen_dot then (10 * den)%positive else den) seen_dot true
         | None => None
         end
  end.

Definition decimal_float (s : string) : option Q :=
  match s with
  | String "-"%char s' => Qopp <$> decimal_digits s' 0 1 false false
  | _ => decimal_digits s 0 1 false false
  end.

(** ** Sample inputs *)

Definition brick : PolyData :=
  {| points := [(0, 0, 0); (2, 0, 0); (2, 1, 0); (0, 1, 0);
                (0, 0, 4); (2, 0, 4); (2, 1, 4); (0, 1, 4)];
     cells := [[0; 1; 2; 3]; [4; 5; 6; 7]; [0; 1; 5; 4];
               [1; 2; 6; 5]; [2; 3; 7; 6]; [3; 0; 4; 7]]%nat |}.

Definition two_sheets : PolyData :=
  {| points := [(0, 0, 0); (2, 0, 0); (0, 2, 0);
                (0, 0, 1); (2, 0, 1); (0, 2, 1)];
     cells := [[0; 1; 2]; [3; 4; 5]]%nat |}.

Definition triangle_and_heptagon : PolyData :=
  {| points := [(0, 0, 0); (1, 0, 0); (2, 1, 0); (2, 2, 0);
                (1, 3, 0); (0, 3, 0); (-1, 1, 0)];
     cells := [[0; 1; 2]; [0; 1; 2; 3; 4; 5; 6]]%nat |}.

(** The empty mesh, [pv.PolyData()]. *)
Definition no_points : PolyData := {| points := []; cells := [] |}.

Definition unit_tunnel : WindTunnelVisualizer :=
  {| x_min := 0; x_max := 1; y_min := 0; y_max := 1; z_min := 0; z_max := 1 |}.

Definition header9 : list string :=
  ["# Force coefficients"; "# liftDir : (0 0 1)"; "# dragDir : (1 0 0)";
   "# pitchAxis : (0 1 0)"; "# magUInf : 20"; "# lRef : 1"; "# Aref : 1";
   "# CofR : (0 0 0)"; "# Time Cm Cd Cl Cl(f) Cl(r)"].

Definition sample_files : gmap string (list string) :=
  {[ "forceCoeffs.dat" := header9 ++ ["0.1 0.0 1.2 0.5 0.3 0.2"] ]}.

(** * Further definitions *)

(** ** Meshes that agree coordinate by coordinate *)

Definition point_eq (p q : point) : Prop :=
  p.1.1 == q.1.1 ∧ p.1.2 == q.1.2 ∧ p.2 == q.2.

Definition same_points (m m' : PolyData) : Prop :=
  Forall2 point_eq (points m) (points m').

(** A point inside the box of the given dimensions that is centred on the
    x and y axes and stands on the plane z = 0. *)
Definition in_tunnel_envelope (max_dimensions : Q * Q * Q) (p : point) : Prop :=
  - (max_dimensions.1.1 / 2) <= p.1.1 <= max_dimensions.1.1 / 2 ∧
  - (max_dimensions.1.2 / 2) <= p.1.2 <= max_dimensions.1.2 / 2 ∧
  0 <= p.2 <= max_dimensions.2.

(** ** The text overlay of display.py *)

(** One call of [Plotter.add_text]. *)
Record text_actor := {
  text : string;
  text_position : string;
  text_font_size : nat;
  text_color : string
}.

Definition plt_add_text (text position : string) (font_size : nat)
    (color : string) : io (list text_actor) () :=
  λ plt, (Ok (), plt ++ [{| text := text; text_position := position;
                            text_font_size := font_size;
                            text_color := color |}]).

Definition newline : string := String "010"%char EmptyString.

Definition force_coefficient_keys : list string :=
  ["Moment"; "Drag"; "Lift"; "Front Lift"; "Rear Lift"].

Section add_force_coefficients.
(** The format specification [:.3f]. *)
Variable format_3f : Q → string.

Definition add_force_coefficients (coefficients : gmap string Q)
    (font_size : nat) (color position : string) : io (list text_actor) () :=
  let moment := default 0 (coefficients !! "Moment") in
  let drag := default 0 (coefficients !! "Drag") in
  let lift := default 0 (coefficients !! "Lift") in
  let front_lift := default 0 (coefficients !! "Front Lift") in
  let rear_lift := default 0 (coefficients !! "Rear Lift") in
  let force_coeffs_text :=
    "Moment: " +:+ format_3f moment +:+ newline +:+
    "Drag: " +:+ format_3f drag +:+ newline +:+
    "Lift: " +:+ format_3f lift +:+ newline +:+
    "Front Lift: " +:+ format_3f front_lift +:+ newline +:+
    "Rear Lift: " +:+ format_3f rear_lift in
  plt_add_text force_coeffs_text position font_size color.
End add_force_coefficients.

(** * gitRun.py

    The script drives the external [windtunnel] and [inductiva] packages;
    its calls to them are recorded in the order they are made.  The number
    of runs and the first angle are the script's [DATASET_SIZE] and the
    initial value of [alpha]. *)

Inductive call :=
| NewProject (name : string)
| NewMachineGroup (provider machine_type : string) (spot : bool)
| NewWindTunnel (dimensions : Z * Z * Z)
| SetObject (object_path : string) (rotate_z_degrees rotate_y_degrees : Z)
    (translate : Z * Z * Z) (normalize center : bool)
| Display
| Print (s : string)
| Simulate (wind_speed_ms num_iterations resolution : Z) (task : nat)
| AddTask (task : nat)
| TaskWait (task : nat)
| GetOutput (task : nat)
| SetMetadata (task : nat) (angle_of_attack : Z)
| ProjectWait
| Terminate.

Record script_state := {
  alpha : Z;
  tasks : list (nat * Z);
  trace : list call
}.

(** The body of [for i in range(DATASET_SIZE)]; the task returned by
    [simulate] is named after the iteration. *)
Definition sweep_body (s : script_state) (i : nat) : script_state :=
  let task := i in
  {| alpha := (alpha s + 1)%Z;
     tasks := tasks s;
     trace := trace s ++
       [NewWindTunnel (20, 10, 8)%Z;
        SetObject "assets/orientedUAV.obj" 0 (alpha s) (0, 0, 2)%Z false true;
        Display;
        Print "Starting UAV Simulation";
        Simulate 20 50 3 task;
        AddTask task;
        TaskWait task] |}.

(** The body of [for task, alpha in tasks]. *)
Definition metadata_body (s : script_state) (entry : nat * Z) : script_state :=
  {| alpha := entry.2;
     tasks := tasks s;
     trace := trace s ++ [GetOutput entry.1; SetMetadata entry.1 entry.2] |}.

Definition gitRun (DATASET_SIZE : nat) (first_alpha : Z) : script_state :=
  let s := {| alpha := first_alpha; tasks := [];
              trace := [NewProject "UAV_dataset";
                        NewMachineGroup "GCP" "c2d-highcpu-32" true] |} in
  let s := foldl sweep_body s (seq 0 DATASET_SIZE) in
  let s := foldl metadata_body s (tasks s) in
  {| alpha := alpha s; tasks := tasks s;
     trace := trace s ++ [ProjectWait; Terminate] |}.

(** The script as it stands. *)
Definition gitRun_script : script_state := gitRun 41 (-20).

(** The angles of attack given to [set_object], in call order. *)
Definition angles_of_attack (t : list call) : list Z :=
  omap (λ c, match c with
             | SetObject _ _ a _ _ _ => Some a
             | _ => None
             end) t.

Definition touches_results (c : call) : bool :=
  match c with
  | GetOutput _ | SetMetadata _ _ => true
  | _ => false
  end.

(** The tasks returned by [simulate], in call order. *)
Definition submitted_tasks (t : list call) : list nat :=
  omap (λ c, match c with
             | Simulate _ _ _ task => Some task
             | _ => None
             end) t.

(** ** More sample inputs *)

Definition plate : PolyData :=
  {| points := [(0, 0, 1); (3, 0, 1); (3, 2, 1); (0, 2, 1)];
     cells := [[0; 1; 2; 3]]%nat |}.

Definition triangle_and_quad : PolyData :=
  {| points := [(0, 0, 0); (1, 0, 0); (1, 1, 0); (0, 1, 0)];
     cells := [[0; 1; 2]; [0; 1; 2; 3]]%nat |}.

Definition short_file : gmap string (list string) :=
  {[ "forceCoeffs.dat" := ["# Force coefficients"; "0.1 0.0 1.2 0.5 0.3 0.2"] ]}.

Definition blank_row_file : gmap string (list string) :=
  {[ "forceCoeffs.dat" := header9 ++ ["0.1 0.0 1.2 0.5 0.3 0.2"; ""] ]}.

(** * Verification *)

(** ** Bounding boxes under scaling and translation *)

Lemma Qcompare_mult_l (f a b : Q) : 0 < f → (f * a ?= f * b) = (a ?= b).
Proof.
  intros Hf.
  destruct (a ?= b) eqn:E.
  - apply (proj1 (Qeq_alt _ _)). apply (proj2 (Qeq_alt _ _)) in E.
    by rewrite E.
  - apply (proj1 (Qlt_alt _ _)). apply (proj2 (Qlt_alt _ _)) in E.
    by apply Qmult_lt_l.
  - apply (proj1 (Qgt_alt _ _)). apply (proj2 (Qgt_alt _ _)) in E.
    by apply Qmult_lt_l.
Qed.

Lemma Qcompare_plus_r (d a b : Q) : (a + d ?= b + d) = (a ?= b).
Proof.
  destruct (a ?= b) eqn:E.
  - apply (proj1 (Qeq_alt _ _)). apply (proj2 (Qeq_alt _ _)) in E.
    by rewrite E.
  - apply (proj1 (Qlt_alt _ _)). apply (proj2 (Qlt_alt _ _)) in E. lra.
  - apply (proj1 (Qgt_alt _ _)). apply (proj2 (Qgt_alt _ _)) in E. lra.
Qed.

Lemma Qmin_mult_l (f a b : Q) : 0 < f → Qmin (f * a) (f * b) = f * Qmin a b.
Proof.
  intros Hf. unfold Qmin, GenericMinMax.gmin.
  rewrite Qcompare_mult_l by done. by destruct (a ?= b).
Qed.

Lemma Qmax_mult_l (f a b : Q) : 0 < f → Qmax (f * a) (f * b) = f * Qmax a b.
Proof.
  intros Hf. unfold Qmax, GenericMinMax.gmax.
  rewrite Qcompare_mult_l by done. by destruct (a ?= b).
Qed.

Lemma Qmin_plus_r (d a b : Q) : Qmin (a + d) (b + d) = Qmin a b + d.
Proof.
  unfold Qmin, GenericMinMax.gmin.
  rewrite Qcompare_plus_r. by destruct (a ?= b).
Qed.

Lemma Qmax_plus_r (d a b : Q) : Qmax (a + d) (b + d) = Qmax a b + d.
Proof.
  unfold Qmax, GenericMinMax.gmax.
  rewrite Qcompare_plus_r. by destruct (a ?= b).
Qed.

(** A binary operation that commutes with [g] also commutes under a fold. *)
Lemma fold_left_commute (op : Q → Q → Q) (g : Q → Q) (l : list Q) (x : Q) :
  (∀ a b, op (g a) (g b) = g (op a b)) →
  fold_left op (map g l) (g x) = g (fold_left op l x).
Proof.
  intros Hop. revert x.
  induction l as [|y l IH]; intros x; simpl; [done|].
  by rewrite Hop, IH.
Qed.

Lemma coord_min_commute (g : Q → Q) (l : list Q) :
  (∀ a b, Qmin (g a) (g b) = g (Qmin a b)) →
  l ≠ [] → coord_min (map g l) = g (coord_min l).
Proof. intros Hg Hl. destruct l as [|x l]; [done|]. by apply fold_left_commute. Qed.

Lemma coord_max_commute (g : Q → Q) (l : list Q) :
  (∀ a b, Qmax (g a) (g b) = g (Qmax a b)) →
  l ≠ [] → coord_max (map g l) = g (coord_max l).
Proof. intros Hg Hl. destruct l as [|x l]; [done|]. by apply fold_left_commute. Qed.

Lemma xs_scale f m : xs (scale_points f m) = map (Qmult f) (xs m).
Proof. unfold xs, scale_points; simpl. by rewrite !map_map. Qed.
Lemma ys_scale f m : ys (scale_points f m) = map (Qmult f) (ys m).
Proof. unfold ys, scale_points; simpl. by rewrite !map_map. Qed.
Lemma zs_scale f m : zs (scale_points f m) = map (Qmult f) (zs m).
Proof. unfold zs, scale_points; simpl. by rewrite !map_map. Qed.

Lemma xs_translate v m : xs (translate_points v m) = map (λ x, x + v.1.1) (xs m).
Proof. unfold xs, translate_points; simpl. by rewrite !map_map. Qed.
Lemma ys_translate v m : ys (translate_points v m) = map (λ y, y + v.1.2) (ys m).
Proof. unfold ys, translate_points; simpl. by rewrite !map_map. Qed.
Lemma zs_translate v m : zs (translate_points v m) = map (λ z, z + v.2) (zs m).
Proof. unfold zs, translate_points; simpl. by rewrite !map_map. Qed.

Lemma coords_nonempty m :
  points m ≠ [] → xs m ≠ [] ∧ ys m ≠ [] ∧ zs m ≠ [].
Proof. unfold xs, ys, zs. by destruct (points m). Qed.

(** Bounding box of a scaled mesh (positive factor). *)
Lemma bounds_scale f m :
  0 < f → points m ≠ [] →
  bounds (scale_points f m) =
  {| xmin := f * xmin (bounds m); xmax := f * xmax (bounds m);
     ymin := f * ymin (bounds m); ymax := f * ymax (bounds m);
     zmin := f * zmin (bounds m); zmax := f * zmax (bounds m) |}.
Proof.
  intros Hf (Hx & Hy & Hz)%coords_nonempty. unfold bounds; simpl.
  rewrite xs_scale, ys_scale, zs_scale.
  rewrite !coord_min_commute, !coord_max_commute;
    auto using Qmin_mult_l, Qmax_mult_l.
Qed.

Lemma bounds_translate v m :
  points m ≠ [] →
  bounds (translate_points v m) =
  {| xmin := xmin (bounds m) + v.1.1; xmax := xmax (bounds m) + v.1.1;
     ymin := ymin (bounds m) + v.1.2; ymax := ymax (bounds m) + v.1.2;
     zmin := zmin (bounds m) + v.2; zmax := zmax (bounds m) + v.2 |}.
Proof.
  intros (Hx & Hy & Hz)%coords_nonempty. unfold bounds; simpl.
  rewrite xs_translate, ys_translate, zs_translate.
  rewrite !(coord_min_commute (λ x, x + _)), !(coord_max_commute (λ x, x + _));
    auto using Qmin_plus_r, Qmax_plus_r.
Qed.

(** A mesh without points has negative extents. *)
Lemma positive_extent_nonempty m : 0 < x_extent m → points m ≠ [].
Proof.
  intros H Hnil. unfold x_extent, bounds, xs in H. rewrite Hnil in H.
  simpl in H. lra.
Qed.

Lemma py_div_pos a b : 0 < b → py_div a b = Ok (a / b).
Proof.
  intros Hb. unfold py_div.
  destruct (Qeq_bool b 0) eqn:E; [|done].
  apply Qeq_bool_iff in E. lra.
Qed.

Lemma Qdiv_mult_cancel a b : 0 < b → a / b * b == a.
Proof. intros Hb. field. lra. Qed.

Lemma Qle_div_mult a b c : 0 < b → c <= a / b → c * b <= a.
Proof.
  intros Hb Hc. rewrite <- (Qdiv_mult_cancel a b Hb).
  apply Qmult_le_compat_r; lra.
Qed.

Lemma extents_scale f m :
  0 < f → points m ≠ [] →
  x_extent (scale_points f m) == f * x_extent m ∧
  y_extent (scale_points f m) == f * y_extent m ∧
  z_extent (scale_points f m) == f * z_extent m.
Proof.
  intros Hf Hm. unfold x_extent, y_extent, z_extent.
  rewrite bounds_scale by done. simpl. repeat split; ring.
Qed.

Lemma normalize_mesh_ok h mesh m dims f :
  h !! mesh = Some m → _get_scaling_factor m dims = Ok f →
  normalize_mesh mesh dims h = (Ok (length h, f), h ++ [scale_points f m]).
Proof.
  intros Hm Hf. unfold normalize_mesh, pv_scale, deref, new, lift, mbind, io_bind, mret, io_ret.
  by rewrite Hm, Hf, Hm.
Qed.


Lemma move_mesh_to_origin_ok h mesh m :
  h !! mesh = Some m →
  let b := bounds m in
  let d : point :=
    (- ((xmin b + xmax b) / 2), - ((ymin b + ymax b) / 2), - zmin b) in
  move_mesh_to_origin mesh h = (Ok (length h, d), h ++ [translate_points d m]).
Proof.
  intros Hm b d.
  unfold move_mesh_to_origin, pv_translate, deref, new, mbind, io_bind, mret, io_ret.
  by rewrite Hm, Hm.
Qed.

Lemma translate_points_nonempty v m :
  points m ≠ [] → points (translate_points v m) ≠ [].
Proof. unfold translate_points; simpl. by destruct (points m). Qed.



(** Both transforms only append to the heap. *)
Lemma normalize_mesh_extends mesh dims h r h' :
  normalize_mesh mesh dims h = (r, h') →
  h' = h ∧ (∀ p, r ≠ Ok p) ∨
  ∃ m f, h !! mesh = Some m ∧ r = Ok (length h, f) ∧ h' = h ++ [scale_points f m].
Proof.
  unfold normalize_mesh, pv_scale, deref, new, lift, mbind, io_bind, mret, io_ret.
  destruct (h !! mesh) as [m|] eqn:Hm.
  - destruct (_get_scaling_factor m dims) as [f|e] eqn:Hf.
    + rewrite Hm. intros [= <- <-]. right. eauto.
    + intros [= <- <-]. by left.
  - intros [= <- <-]. by left.
Qed.

Lemma move_mesh_to_origin_extends mesh h r h' :
  move_mesh_to_origin mesh h = (r, h') →
  h' = h ∧ (∀ p, r ≠ Ok p) ∨
  ∃ m d, h !! mesh = Some m ∧ r = Ok (length h, d) ∧ h' = h ++ [translate_points d m].
Proof.
  unfold move_mesh_to_origin, pv_translate, deref, new, mbind, io_bind, mret, io_ret.
  destruct (h !! mesh) as [m|] eqn:Hm.
  - rewrite Hm. intros [= <- <-]. right. eauto.
  - intros [= <- <-]. by left.
Qed.

(** C9: neither [normalize_mesh] nor [move_mesh_to_origin] changes the
    object it is given (nor any other object); the mesh they return is a
    newly allocated one. *)
Theorem transforms_leave_input_untouched
    (h : heap) (mesh : loc) (m : PolyData) (max_dimensions : Q * Q * Q) :
  h !! mesh = Some m →
  (∀ r h', normalize_mesh mesh max_dimensions h = (r, h') →
     input_untouched h h' mesh m (returned_mesh r) ∧
     ∃ m', h' !! mesh = Some m' ∧ points m' = points m ∧ bounds m' = bounds m) ∧
  (∀ r h', move_mesh_to_origin mesh h = (r, h') →
     input_untouched h h' mesh m (returned_mesh r) ∧
     ∃ m', h' !! mesh = Some m' ∧ points m' = points m ∧ bounds m' = bounds m).
Proof.
  intros Hm.
  assert (Hext : ∀ (x : PolyData) (r : option loc) h',
    (h' = h ∧ r = None ∨ r = Some (length h) ∧ h' = h ++ [x]) →
    input_untouched h h' mesh m r ∧
    ∃ m', h' !! mesh = Some m' ∧ points m' = points m ∧ bounds m' = bounds m).
  { intros x r h' [[-> ->]|[-> ->]].
    - split; [|by eauto]. split; [done|]. split; [done|]. by intros.
    - assert (Hlt : (mesh < length h)%nat) by by eapply lookup_lt_Some.
      assert (Hm' : (h ++ [x]) !! mesh = Some m) by by rewrite lookup_app_l.
      split; [|by eauto]. split; [done|]. split.
      + intros l y Hl. rewrite lookup_app_l; [done|]. by eapply lookup_lt_Some.
      + intros mesh' [= <-]. split; [lia|]. split.
        * by apply lookup_ge_None.
        * rewrite lookup_app_r by done. rewrite Nat.sub_diag. by eexists. }
  split; intros r h' Hcall.
  - apply normalize_mesh_extends in Hcall as [[-> Hr]|(m0 & f & _ & -> & ->)].
    + apply (Hext m). left. split; [done|].
      destruct r as [[l f]|e]; [by destruct (Hr (l, f))|done].
    + apply (Hext (scale_points f m0)). by right.
  - apply move_mesh_to_origin_extends in Hcall as [[-> Hr]|(m0 & f & _ & -> & ->)].
    + apply (Hext m). left. split; [done|].
      destruct r as [[l f]|e]; [by destruct (Hr (l, f))|done].
    + apply (Hext (translate_points f m0)). by right.
Qed.

(** ** Projected area and export *)

Lemma py_div_nonzero a b : ¬ b == 0 → py_div a b = Ok (a / b).
Proof.
  intros Hb. unfold py_div.
  destruct (Qeq_bool b 0) eqn:E; [|done].
  by apply Qeq_bool_iff in E.
Qed.

Lemma n_cells_positive mesh :
  n_cells mesh ≠ 0%nat → 0 < inject_Z (Z.of_nat (n_cells mesh)).
Proof.
  intros Hn. change 0 with (inject_Z 0). rewrite <- Zlt_Qlt. lia.
Qed.

Lemma decimation_factor_ok mesh :
  n_cells mesh ≠ 0%nat →
  decimation_factor mesh
  = Ok (1 - NUM_DECIMATION_CELLS / inject_Z (Z.of_nat (n_cells mesh))).
Proof.
  intros Hn%n_cells_positive. unfold decimation_factor.
  rewrite py_div_nonzero; [done|lra].
Qed.

Lemma decimation_factor_below_one mesh :
  n_cells mesh ≠ 0%nat →
  1 - NUM_DECIMATION_CELLS / inject_Z (Z.of_nat (n_cells mesh)) < 1.
Proof.
  intros Hn%n_cells_positive.
  assert (0 < NUM_DECIMATION_CELLS / inject_Z (Z.of_nat (n_cells mesh))).
  { apply Qlt_shift_div_l; [done|]. unfold NUM_DECIMATION_CELLS. lra. }
  lra.
Qed.

Lemma decimated_ok `{PyVistaFilters} (mesh : PolyData) :
  n_cells mesh ≠ 0%nat →
  decimated mesh
  = Ok (pv_decimate (pv_triangulate mesh)
          (1 - NUM_DECIMATION_CELLS / inject_Z (Z.of_nat (n_cells mesh)))).
Proof.
  intros Hn. unfold decimated. rewrite decimation_factor_ok by done. simpl.
  destruct (Qlt_le_dec _ 1) as [|Hge]; [done|].
  pose proof (decimation_factor_below_one mesh Hn). lra.
Qed.

(** C3: whatever its number of cells (at least one), the mesh is
    triangulated and then handed to the decimation filter; at or below the
    threshold the requested reduction is not positive. *)
Theorem decimated_always_filters `{PyVistaFilters} (mesh : PolyData) :
  n_cells mesh ≠ 0%nat →
  let factor := 1 - NUM_DECIMATION_CELLS / inject_Z (Z.of_nat (n_cells mesh)) in
  decimated mesh = Ok (pv_decimate (pv_triangulate mesh) factor) ∧
  ((n_cells mesh <= 5000)%nat → factor <= 0).
Proof.
  intros Hn factor. split; [by apply decimated_ok|].
  - intros Hle. unfold factor, NUM_DECIMATION_CELLS.
    pose proof (n_cells_positive mesh Hn) as Hpos.
    assert (inject_Z (Z.of_nat (n_cells mesh)) <= 5000).
    { change 5000 with (inject_Z 5000). rewrite <- Zle_Qle. lia. }
    assert (1 <= 5000 / inject_Z (Z.of_nat (n_cells mesh))).
    { apply Qle_shift_div_l; [done|]. lra. }
    lra.
Qed.

(** [mapM] over [result] succeeds when the function does on every element. *)
Lemma mapM_result_ok {A B} (f : A → result B) (P : B → Prop) (l : list A) :
  Forall (λ x, ∃ y, f x = Ok y ∧ P y) l →
  ∃ k, mapM f l = Ok k ∧ Forall P k.
Proof.
  induction 1 as [|x l (y & Hy & HP) _ (k & Hk & HPk)]; simpl.
  - by exists [].
  - exists (y :: k). rewrite Hy; simpl. rewrite Hk; simpl. split; [done|].
    by constructor.
Qed.

Lemma take_ok (pts : list point) (tri : list nat) :
  Forall (λ i, (i < length pts)%nat) tri →
  ∃ k, take pts tri = Ok k ∧ length k = length tri.
Proof.
  unfold take. induction 1 as [|i tri Hi _ (k & Hk & Hlen)]; simpl.
  - by exists [].
  - destruct (lookup_lt_is_Some_2 pts i Hi) as [p Hp].
    exists (p :: k). rewrite Hp; simpl. rewrite Hk; simpl.
    split; [done|]. simpl. by rewrite Hlen.
Qed.

Lemma project_points_to_plane_valid normal mesh :
  valid_faces mesh → valid_faces (project_points_to_plane normal mesh).
Proof.
  unfold valid_faces, project_points_to_plane; simpl.
  by rewrite length_map.
Qed.

Lemma regular_faces_triangles mesh :
  Forall (λ c, length c = 3%nat) (cells mesh) →
  regular_faces mesh = Ok (cells mesh).
Proof.
  unfold regular_faces. destruct (cells mesh) as [|c cs]; [done|].
  intros [Hc Hcs]%Forall_cons.
  replace (forallb _ cs) with true; [done|].
  symmetry. apply forallb_forall. intros c' Hin.
  rewrite Forall_forall in Hcs. apply Nat.eqb_eq.
  rewrite Hc. apply Hcs. by apply list_elem_of_In.
Qed.

Lemma projection_axes_ok plane :
  plane ∈ ["X"; "Y"; "Z"]%string →
  ∃ indices normal, projection_axes plane = Ok (indices, normal).
Proof.
  intros Hp. unfold projection_axes.
  repeat case_decide; eauto.
  rewrite !elem_of_cons, elem_of_nil in Hp.
  destruct Hp as [?|[?|[?|[]]]]; done.
Qed.

Section union_area.
Context `{Shapely} (laws : ShapelyLaws).

Lemma total_area_nonneg l : 0 <= total_area l.
Proof.
  induction l as [|g l IH]; simpl; [lra|].
  pose proof (area_nonneg laws g). lra.
Qed.

Lemma union_area_le_total l : area (union_all l) <= total_area l.
Proof.
  induction l as [|g l IH]; simpl.
  - rewrite (area_union_nil laws). lra.
  - rewrite (area_union_cons laws).
    pose proof (area_nonneg laws (intersection g (union_all l))). lra.
Qed.

Lemma union_area_lt_total l : overlapping l → area (union_all l) < total_area l.
Proof.
  intros (i & j & a & b & Hij & Hi & Hj & Hov).
  revert i j Hij Hi Hj.
  induction l as [|g l IH]; intros i j Hij Hi Hj; [done|].
  simpl. rewrite (area_union_cons laws).
  pose proof (union_area_le_total l) as Hle.
  destruct i as [|i].
  - simpl in Hi. injection Hi as ->.
    destruct j as [|j]; [lia|]. simpl in Hj.
    assert (Hin : b ∈ l) by (apply list_elem_of_lookup; eauto).
    pose proof (area_intersection_mono laws a b l Hin). lra.
  - destruct j as [|j]; [lia|]. simpl in Hi, Hj.
    assert (area (union_all l) < total_area l) by (apply (IH i j); [lia|done..]).
    pose proof (area_nonneg laws (intersection g (union_all l))). lra.
Qed.
End union_area.


(** The flat [faces] array of a mesh whose faces all have [k] vertices. *)
Lemma rows_flat_map (k : nat) (cs : list (list nat)) :
  Forall (λ c, length c = k) cs →
  rows (length cs) (S k) (flat_map (λ c, length c :: c) cs) = map (cons k) cs.
Proof.
  induction 1 as [|c cs Hc _ IH]; simpl; [done|].
  subst k. f_equal.
  - by rewrite take_app_length.
  - by rewrite drop_app_length.
Qed.

Lemma length_flat_map_faces (k : nat) (cs : list (list nat)) :
  Forall (λ c, length c = k) cs →
  length (flat_map (λ c, length c :: c) cs) = (length cs * S k)%nat.
Proof.
  induction 1 as [|c cs Hc _ IH]; simpl; [done|].
  rewrite length_app, IH, Hc. lia.
Qed.

Lemma reshape_faces (k : nat) (mesh : PolyData) :
  Forall (λ c, length c = k) (cells mesh) →
  reshape (faces mesh) (S k) = Ok (map (cons k) (cells mesh)).
Proof.
  intros Hk. unfold reshape, faces.
  rewrite (length_flat_map_faces k) by done.
  rewrite Nat.Div0.mod_mul, Nat.div_mul by done. simpl.
  by rewrite rows_flat_map.
Qed.

Lemma strip_marker (k : nat) (cs : list (list nat)) :
  map (skipn 1) (map (cons k) cs) = cs.
Proof. rewrite map_map. simpl. by rewrite map_id. Qed.

Lemma cell_type_triangle c : cell_type c = TRIANGLE ↔ length c = 3%nat.
Proof. unfold cell_type. destruct (length c) as [|[|[|[|[|]]]]]; split; done. Qed.

Lemma cell_type_quad c : cell_type c = QUAD ↔ length c = 4%nat.
Proof. unfold cell_type. destruct (length c) as [|[|[|[|[|]]]]]; split; done. Qed.

Lemma save_mesh_obj_homogeneous mesh dest fs (k : nat) :
  cells mesh ≠ [] →
  Forall (λ c, length c = k) (cells mesh) →
  (k = 3%nat ∨ k = 4%nat) →
  save_mesh_obj mesh dest fs
  = (Ok (), <[dest := {| vertices := points mesh; tm_faces := cells mesh |}]> fs).
Proof.
  intros Hne Hall Hk. unfold save_mesh_obj, lift, mbind, io_bind, export_mesh.
  destruct (cells mesh) as [|c cs] eqn:Hcells; [done|]. simpl.
  assert (Hc : length c = k) by by inversion Hall.
  unfold cell_type. rewrite Hc.
  destruct Hk as [-> | ->]; simpl;
    rewrite <- Hcells in Hall; rewrite (reshape_faces _ mesh Hall);
    by rewrite strip_marker, Hcells.
Qed.

(** C5 (amended): the check looks at the first cell.  When that cell is
    neither a triangle nor a quad the export raises and stores nothing; when
    all cells are triangles, or all are quads, the faces are exported
    without their size marker. *)
Theorem save_mesh_obj_checks_first_cell
    (mesh : PolyData) (dest : string) (fs : gmap string Trimesh) :
  (∀ c, cells mesh !! 0%nat = Some c →
        cell_type c ≠ TRIANGLE → cell_type c ≠ QUAD →
        save_mesh_obj mesh dest fs
        = (Raise (ValueError "Mesh cell type not supported"), fs)) ∧
  (cells mesh ≠ [] →
   Forall (λ c, cell_type c = TRIANGLE) (cells mesh) ∨
   Forall (λ c, cell_type c = QUAD) (cells mesh) →
   faces mesh = flat_map (λ c, length c :: c) (cells mesh) ∧
   save_mesh_obj mesh dest fs
   = (Ok (), <[dest := {| vertices := points mesh; tm_faces := cells mesh |}]> fs)).
Proof.
  split.
  - intros c Hc Ht Hq. unfold save_mesh_obj, lift, mbind, io_bind.
    rewrite Hc. by destruct (cell_type c).
  - intros Hne Hall. split; [done|]. destruct Hall as [Hall|Hall].
    + apply (save_mesh_obj_homogeneous _ _ _ 3); [done| |by left].
      eapply Forall_impl; [done|]. by intros c ?%cell_type_triangle.
    + apply (save_mesh_obj_homogeneous _ _ _ 4); [done| |by right].
      eapply Forall_impl; [done|]. by intros c ?%cell_type_quad.
Qed.

(** C5 (as stated) fails: a mesh of a triangle followed by a heptagon is
    exported, as three triangles, without any error. *)
Lemma save_mesh_obj_mixed_mesh :
  (∃ c, c ∈ cells triangle_and_heptagon ∧
        cell_type c ≠ TRIANGLE ∧ cell_type c ≠ QUAD) ∧
  save_mesh_obj triangle_and_heptagon "out.obj" ∅
  = (Ok (), {[ "out.obj" :=
       {| vertices := points triangle_and_heptagon;
          tm_faces := [[0; 1; 2]; [0; 1; 2]; [4; 5; 6]]%nat |} ]}).
Proof.
  split.
  - exists [0; 1; 2; 3; 4; 5; 6]%nat. split; [|done].
    apply list_elem_of_In. simpl. auto.
  - reflexivity.
Qed.

(** ** Walls and force coefficients *)

Lemma add_walls_run self opacity plt :
  _add_walls self opacity plt
  = (Ok (), plt ++
      [ {| actor_mesh := _get_x_aligned_rectangle (x_min self) (y_min self)
                           (y_max self) (z_min self) (z_max self);
           actor_color := "red"; actor_opacity := opacity;
           actor_show_edges := false |};
        {| actor_mesh := _get_x_aligned_rectangle (x_max self) (y_min self)
                           (y_max self) (z_min self) (z_max self);
           actor_color := "red"; actor_opacity := opacity;
           actor_show_edges := true |};
        {| actor_mesh := _get_y_aligned_rectangle (y_min self) (x_min self)
                           (x_max self) (z_min self) (z_max self);
           actor_color := "green"; actor_opacity := opacity;
           actor_show_edges := true |};
        {| actor_mesh := _get_z_aligned_rectangle (z_min self) (x_min self)
                           (x_max self) (y_min self) (y_max self);
           actor_color := "blue"; actor_opacity := opacity;
           actor_show_edges := true |} ]).
Proof.
  unfold _add_walls, plt_add_mesh, mbind, io_bind. simpl.
  by rewrite <- !app_assoc.
Qed.

(** C6 (amended): four panels are added, on the faces x = x_min, x = x_max,
    y = y_min and z = z_min; each is centred on the midpoints of its two
    in-plane dimensions and spans the box along them. *)
Theorem add_walls_four_panels (self : WindTunnelVisualizer) (opacity : Q) :
  ∃ p1 p2 p3 p4 : Plane,
    (∀ plt : list actor, ∃ added : list actor,
       _add_walls self opacity plt = (Ok (), plt ++ added) ∧
       actor_mesh <$> added = [p1; p2; p3; p4]) ∧
    wall_of self X_axis (x_min self) p1 ∧
    wall_of self X_axis (x_max self) p2 ∧
    wall_of self Y_axis (y_min self) p3 ∧
    wall_of self Z_axis (z_min self) p4.
Proof.
  eexists _, _, _, _. split.
  - intros plt. eexists. split; [apply add_walls_run|reflexivity].
  - unfold wall_of; simpl. repeat split; reflexivity.
Qed.

(** C6 (as stated) fails: the unit box gets four panels, none of them on
    the face y = 1 and none on the face z = 1. *)
Lemma add_walls_unit_tunnel :
  ∃ walls : list actor,
    _add_walls unit_tunnel (1 # 2) [] = (Ok (), walls) ∧
    length walls ≠ 6%nat ∧
    ¬ (∃ w, w ∈ walls ∧ wall_of unit_tunnel Y_axis 1 (actor_mesh w)) ∧
    ¬ (∃ w, w ∈ walls ∧ wall_of unit_tunnel Z_axis 1 (actor_mesh w)).
Proof.
  eexists. split; [apply add_walls_run|]. simpl.
  split; [done|].
  split; intros (w & Hw & Hwall);
    rewrite !elem_of_cons, elem_of_nil in Hw;
    destruct Hw as [->|[->|[->|[->|[]]]]];
    destruct Hwall as (Hdir & Hoff & _); simpl in Hdir, Hoff;
    first [discriminate Hdir | discriminate Hoff].
Qed.

Lemma skip_lines_app (header rows : list string) :
  skip_lines (length header) (header ++ rows) = Ok rows.
Proof. induction header as [|l header IH]; simpl; done. Qed.

Lemma read_lines_rows float column rows values time coeff :
  Forall2 (row_reads float column) rows values →
  read_lines float column rows time coeff
  = Ok (time ++ values.*1, coeff ++ values.*2).
Proof.
  intros Hrows. revert time coeff.
  induction Hrows as [|line v rows values (s0 & sc & H0 & Ht & Hc & Hv) _ IH];
    intros time coeff; simpl.
  - by rewrite !app_nil_r.
  - unfold index, py_float. rewrite H0; simpl. rewrite Ht; simpl.
    rewrite Hc; simpl. rewrite Hv; simpl.
    rewrite IH. by rewrite <- !app_assoc.
Qed.

Lemma plot_force_coefficients_rows float fs path name column header rows values log :
  length header = 9%nat →
  fs !! path = Some (header ++ rows) →
  coeffs_map !! lower name = Some column →
  Forall2 (row_reads float column) rows values →
  plot_force_coefficients float fs path name log
  = (Ok (), log ++ [Open path; Plot (values.*1) (values.*2) (lower name)]).
Proof.
  intros Hlen Hfile Hcol Hrows.
  unfold plot_force_coefficients, open, lift, plt_plot, mbind, io_bind.
  rewrite Hcol, Hfile. rewrite <- Hlen, skip_lines_app.
  rewrite (read_lines_rows _ _ _ values) by done. simpl.
  by rewrite <- app_assoc.
Qed.


Lemma coeffs_map_None (s : string) :
  coeffs_map !! s = None ↔ s ∉ known_coefficients.*1.
Proof.
  unfold coeffs_map, known_coefficients. simpl.
  rewrite !lookup_insert_None, lookup_empty.
  rewrite !not_elem_of_cons.
  pose proof (not_elem_of_nil s) as Hnil.
  split.
  - intros (((((_ & ?) & ?) & ?) & ?) & ?).
    repeat split; try done; by intros ->.
  - intros (? & ? & ? & ? & ? & _). repeat split; try done; by intros <-.
Qed.

Lemma coeffs_map_known (s : string) (column : nat) :
  (s, column) ∈ known_coefficients → coeffs_map !! s = Some column.
Proof.
  unfold known_coefficients. rewrite !elem_of_cons, elem_of_nil.
  intros [[= -> ->]|[[= -> ->]|[[= -> ->]|[[= -> ->]|[[= -> ->]|[]]]]]]; done.
Qed.


(** ** The executable instances satisfy the interface laws *)

Lemma fan_all (P : list nat → Prop) (v0 : nat) (c : list nat) :
  (∀ a b, a ∈ c → b ∈ c → P [v0; a; b]) → Forall P (fan v0 c).
Proof.
  induction c as [|a c IH]; intros HP; simpl; [done|].
  destruct c as [|b c]; [done|].
  constructor.
  - apply HP; rewrite !elem_of_cons; auto.
  - apply IH. intros x y Hx Hy. apply HP; rewrite elem_of_cons; auto.
Qed.

Lemma fan_triangulate_all (P : list nat → Prop) (mesh : PolyData) :
  (∀ c v0 a b, c ∈ cells mesh → v0 ∈ c → a ∈ c → b ∈ c → P [v0; a; b]) →
  Forall P (cells (fan_triangulate mesh)).
Proof.
  intros HP. unfold fan_triangulate; simpl.
  apply Forall_flat_map, Forall_forall. intros c Hc.
  destruct c as [|v0 c']; [done|].
  apply fan_all. intros a b Ha Hb.
  apply (HP (v0 :: c')); rewrite ?elem_of_cons; auto.
Qed.

Lemma fan_filters_laws : @PyVistaLaws fan_filters.
Proof.
  split; simpl.
  - done.
  - intros mesh Hvalid. unfold valid_faces in *. simpl.
    apply fan_triangulate_all. intros c v0 a b Hc Hv0 Ha Hb.
    rewrite Forall_forall in Hvalid. specialize (Hvalid c Hc).
    rewrite Forall_forall in Hvalid.
    repeat constructor; by apply Hvalid.
  - intros mesh. by apply fan_triangulate_all.
  - done.
Qed.

Lemma size_union_intersection (g u : gset (Z * Z)) :
  (size (g ∪ u) + size (g ∩ u) = size g + size u)%nat.
Proof.
  rewrite size_union_alt, (comm_L (∩) g u), size_difference_alt.
  pose proof (subseteq_size (u ∩ g) u (intersection_subseteq_l _ _)). lia.
Qed.

Lemma lattice_shapely_laws : @ShapelyLaws lattice_shapely.
Proof.
  split; simpl.
  - intros g. change 0 with (inject_Z 0). rewrite <- Zle_Qle. lia.
  - reflexivity.
  - intros g l.
    pose proof (size_union_intersection g (⋃ l)) as Hu.
    assert (Hq : inject_Z (Z.of_nat (size (g ∪ ⋃ l)))
                 + inject_Z (Z.of_nat (size (g ∩ ⋃ l)))
                 == inject_Z (Z.of_nat (size g))
                    + inject_Z (Z.of_nat (size (⋃ l)))).
    { rewrite <- !inject_Z_plus, <- !Nat2Z.inj_add, Hu. reflexivity. }
    lra.
  - intros a b l Hb. rewrite <- Zle_Qle. apply inj_le, subseteq_size.
    intros x [Ha Hx]%elem_of_intersection. apply elem_of_intersection.
    split; [done|]. apply elem_of_union_list. eauto.
Qed.

(** ** The theorems at work on the sample inputs *)



Lemma transforms_leave_brick_untouched :
  (∀ r h', normalize_mesh 0%nat (10, 2, 1) [brick] = (r, h') →
     input_untouched [brick] h' 0%nat brick (returned_mesh r) ∧
     ∃ m', h' !! 0%nat = Some m' ∧ points m' = points brick ∧
           bounds m' = bounds brick) ∧
  (∀ r h', move_mesh_to_origin 0%nat [brick] = (r, h') →
     input_untouched [brick] h' 0%nat brick (returned_mesh r) ∧
     ∃ m', h' !! 0%nat = Some m' ∧ points m' = points brick ∧
           bounds m' = bounds brick).
Proof.
  apply (transforms_leave_input_untouched [brick] 0%nat brick (10, 2, 1)).
  reflexivity.
Defined.

Lemma decimated_brick :
  let factor := 1 - NUM_DECIMATION_CELLS / inject_Z (Z.of_nat (n_cells brick)) in
  @decimated fan_filters brick
  = Ok (@pv_decimate fan_filters (@pv_triangulate fan_filters brick) factor) ∧
  ((n_cells brick <= 5000)%nat → factor <= 0).
Proof.
  apply (@decimated_always_filters fan_filters brick). discriminate.
Defined.


Lemma two_sheets_valid : valid_faces two_sheets.
Proof. unfold valid_faces. simpl. repeat constructor. Qed.


Lemma save_brick :
  faces brick = flat_map (λ c, length c :: c) (cells brick) ∧
  save_mesh_obj brick "brick.obj" ∅
  = (Ok (), <["brick.obj" :=
              {| vertices := points brick; tm_faces := cells brick |}]> ∅).
Proof.
  apply (save_mesh_obj_checks_first_cell brick "brick.obj" ∅).
  - discriminate.
  - right. repeat constructor.
Defined.


(** * Further properties of pre_processing.py *)

(** ** Every coordinate lies between the bounds *)

Lemma fold_left_Qmin_le (l : list Q) (a : Q) :
  fold_left Qmin l a <= a ∧ ∀ x, x ∈ l → fold_left Qmin l a <= x.
Proof.
  revert a. induction l as [|y l IH]; intros a; simpl.
  - split; [lra|]. intros x Hx. by apply elem_of_nil in Hx.
  - destruct (IH (Qmin a y)) as [Ha Hl].
    pose proof (Q.le_min_l a y). pose proof (Q.le_min_r a y).
    split; [lra|]. intros x [->|Hx]%elem_of_cons; [lra|by apply Hl].
Qed.

Lemma fold_left_Qmax_ge (l : list Q) (a : Q) :
  a <= fold_left Qmax l a ∧ ∀ x, x ∈ l → x <= fold_left Qmax l a.
Proof.
  revert a. induction l as [|y l IH]; intros a; simpl.
  - split; [lra|]. intros x Hx. by apply elem_of_nil in Hx.
  - destruct (IH (Qmax a y)) as [Ha Hl].
    pose proof (Q.le_max_l a y). pose proof (Q.le_max_r a y).
    split; [lra|]. intros x [->|Hx]%elem_of_cons; [lra|by apply Hl].
Qed.

Lemma coord_min_le (l : list Q) (x : Q) : x ∈ l → coord_min l <= x.
Proof.
  destruct l as [|a l]; [by intros ?%elem_of_nil|].
  destruct (fold_left_Qmin_le l a) as [Ha Hl].
  intros [->|Hx]%elem_of_cons; [done|by apply Hl].
Qed.

Lemma coord_max_ge (l : list Q) (x : Q) : x ∈ l → x <= coord_max l.
Proof.
  destruct l as [|a l]; [by intros ?%elem_of_nil|].
  destruct (fold_left_Qmax_ge l a) as [Ha Hl].
  intros [->|Hx]%elem_of_cons; [done|by apply Hl].
Qed.

Lemma point_within_bounds (m : PolyData) (p : point) :
  p ∈ points m →
  xmin (bounds m) <= p.1.1 <= xmax (bounds m) ∧
  ymin (bounds m) <= p.1.2 <= ymax (bounds m) ∧
  zmin (bounds m) <= p.2 <= zmax (bounds m).
Proof.
  intros Hp. unfold bounds, xs, ys, zs; simpl.
  repeat split; first [apply coord_min_le | apply coord_max_ge];
    apply list_elem_of_fmap; by exists p.
Qed.

(** X8: the length is the largest distance along x between two points. *)
Theorem object_length_bounds_x_distances (m : PolyData) (p q : point) :
  p ∈ points m → q ∈ points m →
  p.1.1 - q.1.1 <= compute_object_length m ∧ 0 <= compute_object_length m.
Proof.
  intros Hp Hq. unfold compute_object_length.
  destruct (point_within_bounds m p Hp) as ([? ?] & _).
  destruct (point_within_bounds m q Hq) as ([? ?] & _).
  split; lra.
Qed.

(** ** Degenerate meshes *)

(** X1: a mesh that is flat along an axis cannot be normalised: the factor
    computation divides by zero and [normalize_mesh] allocates nothing. *)
Theorem normalize_mesh_flat_mesh (m : PolyData) (max_dimensions : Q * Q * Q) :
  x_extent m == 0 ∨ y_extent m == 0 ∨ z_extent m == 0 →
  _get_scaling_factor m max_dimensions = Raise ZeroDivisionError ∧
  ∀ (h : heap) (mesh : loc), h !! mesh = Some m →
    normalize_mesh mesh max_dimensions h = (Raise ZeroDivisionError, h).
Proof.
  intros Hflat.
  assert (Hf : _get_scaling_factor m max_dimensions = Raise ZeroDivisionError).
  { unfold _get_scaling_factor, py_div.
    fold (x_extent m) (y_extent m) (z_extent m).
    destruct (Qeq_bool (x_extent m) 0) eqn:Ex; [done|]. simpl.
    destruct (Qeq_bool (y_extent m) 0) eqn:Ey; [done|]. simpl.
    destruct (Qeq_bool (z_extent m) 0) eqn:Ez; [done|].
    apply Qeq_bool_neq in Ex, Ey, Ez. tauto. }
  split; [done|]. intros h mesh Hm.
  unfold normalize_mesh, deref, lift, mbind, io_bind. by rewrite Hm, Hf.
Qed.

(** ** The scaling factor on meshes with positive extents *)

Lemma scaling_factor_value (m : PolyData) (Lx Ly Lz : Q) :
  0 < x_extent m → 0 < y_extent m → 0 < z_extent m →
  _get_scaling_factor m (Lx, Ly, Lz)
  = Ok (Qmin (Qmin (Lx / x_extent m) (Ly / y_extent m)) (Lz / z_extent m)).
Proof.
  intros Hx Hy Hz. unfold _get_scaling_factor; simpl.
  fold (x_extent m) (y_extent m) (z_extent m).
  by rewrite !py_div_pos.
Qed.

Lemma Qmin3_pos (a b c : Q) : 0 < a → 0 < b → 0 < c → 0 < Qmin (Qmin a b) c.
Proof. intros. by repeat apply Q.min_glb_lt. Qed.

Lemma Qmin3_le (a b c : Q) :
  Qmin (Qmin a b) c <= a ∧ Qmin (Qmin a b) c <= b ∧ Qmin (Qmin a b) c <= c.
Proof.
  pose proof (Q.le_min_l (Qmin a b) c). pose proof (Q.le_min_r (Qmin a b) c).
  pose proof (Q.le_min_l a b). pose proof (Q.le_min_r a b).
  repeat split; lra.
Qed.

Lemma Qmin3_attained (a b c : Q) :
  Qmin (Qmin a b) c == a ∨ Qmin (Qmin a b) c == b ∨ Qmin (Qmin a b) c == c.
Proof.
  destruct (Q.min_dec (Qmin a b) c) as [E|E]; [|by right; right].
  destruct (Q.min_dec a b) as [E'|E'].
  - left. by rewrite E, E'.
  - right; left. by rewrite E, E'.
Qed.

Lemma Qmin3_one (a b c : Q) :
  1 <= a → 1 <= b → 1 <= c → a == 1 ∨ b == 1 ∨ c == 1 →
  Qmin (Qmin a b) c == 1.
Proof.
  intros Ha Hb Hc Hone. apply Qle_antisym.
  - destruct (Qmin3_le a b c) as (? & ? & ?).
    destruct Hone as [E|[E|E]]; lra.
  - by repeat apply Q.min_glb.
Qed.

Lemma ratio_pos (L d : Q) : 0 < L → 0 < d → 0 < L / d.
Proof. intros. apply Qlt_shift_div_l; lra. Qed.

Lemma same_points_map (g : point → point) (l : list point) :
  (∀ p, point_eq (g p) p) → Forall2 point_eq (map g l) l.
Proof.
  intros Hg. induction l as [|p l IH]; simpl; constructor; auto.
Qed.

Lemma scale_points_one (f : Q) (m : PolyData) :
  f == 1 → same_points (scale_points f m) m.
Proof.
  intros Hf. unfold same_points, scale_points; simpl.
  apply same_points_map. intros p. unfold point_eq; simpl.
  rewrite Hf. repeat split; ring.
Qed.





Lemma scale_points_nonempty f m :
  points m ≠ [] → points (scale_points f m) ≠ [].
Proof. unfold scale_points; simpl. by destruct (points m). Qed.

Lemma lookup_new (h : heap) (m : PolyData) : (h ++ [m]) !! length h = Some m.
Proof. rewrite lookup_app_r by done. by rewrite Nat.sub_diag. Qed.


Lemma extents_translate v m :
  points m ≠ [] →
  x_extent (translate_points v m) == x_extent m ∧
  y_extent (translate_points v m) == y_extent m ∧
  z_extent (translate_points v m) == z_extent m.
Proof.
  intros Hne. unfold x_extent, y_extent, z_extent.
  rewrite bounds_translate by done. simpl. repeat split; ring.
Qed.

Lemma same_points_maps (g1 g2 : point → point) (l : list point) :
  (∀ p, point_eq (g1 p) (g2 p)) → Forall2 point_eq (map g1 l) (map g2 l).
Proof.
  intros Hg. induction l as [|p l IH]; simpl; constructor; auto.
Qed.


(** ** Projected area: decimation factor, errors, projection *)


(** X10: any plane name other than "X", "Y" and "Z" (lower-case names
    included) is refused before the mesh is looked at. *)
Theorem compute_projected_area_invalid_plane `{PyVistaFilters} `{Shapely}
    (mesh : PolyData) (projection_plane : string) :
  projection_plane ∉ ["X"; "Y"; "Z"]%string →
  compute_projected_area mesh projection_plane
  = Raise (ValueError "Invalid projection plane. Choose from 'X', 'Y', 'Z'.").
Proof.
  rewrite !not_elem_of_cons. intros (? & ? & ? & _).
  unfold compute_projected_area, projected_polygons, projection_axes.
  by repeat case_decide.
Qed.

(** X11: on a mesh without cells and with a valid plane the decimation
    factor cannot be computed: the call raises ZeroDivisionError, whatever
    the geometry libraries do. *)
Theorem compute_projected_area_no_cells `{PyVistaFilters} `{Shapely}
    (mesh : PolyData) (projection_plane : string) :
  projection_plane ∈ ["X"; "Y"; "Z"]%string →
  n_cells mesh = 0%nat →
  compute_projected_area mesh projection_plane = Raise ZeroDivisionError.
Proof.
  intros (indices & normal & Haxes)%projection_axes_ok Hn.
  unfold compute_projected_area, projected_polygons.
  rewrite Haxes. simpl. unfold decimated, decimation_factor.
  by rewrite Hn.
Qed.

(** X12: for each of the three planes, projecting onto the plane does not
    change the two coordinates that are kept, and the projected points lie
    in the plane through the origin. *)
Theorem projection_keeps_retained_coordinates
    (mesh : PolyData) (projection_plane : string)
    (indices : nat * nat) (normal : point) :
  projection_axes projection_plane = Ok (indices, normal) →
  Forall2 (λ a b : Q * Q, a.1 == b.1 ∧ a.2 == b.2)
    (columns indices (points (project_points_to_plane normal mesh)))
    (columns indices (points mesh)) ∧
  Forall (λ p, dot normal p == 0)
    (points (project_points_to_plane normal mesh)).
Proof.
  unfold projection_axes. intros Haxes.
  assert (Hcases : (indices, normal) = ((1, 2)%nat, (1, 0, 0)) ∨
                   (indices, normal) = ((0, 2)%nat, (0, 1, 0)) ∨
                   (indices, normal) = ((0, 1)%nat, (0, 0, 1))).
  { repeat case_decide; try discriminate; injection Haxes as <- <-; auto. }
  unfold columns, project_points_to_plane; simpl. rewrite map_map.
  split.
  - induction (points mesh) as [|p l IH]; simpl; constructor; [|done].
    destruct Hcases as [[= -> ->]|[[= -> ->]|[= -> ->]]];
      unfold dot; simpl; split; ring.
  - apply Forall_forall. intros q (p & -> & _)%list_elem_of_fmap.
    destruct Hcases as [[= -> ->]|[[= -> ->]|[= -> ->]]];
      unfold dot; simpl; ring.
Qed.

(** ** save_mesh_obj: what reaches the file system *)

Lemma rows_lengths {A} (n k : nat) (a : list A) :
  length a = (n * k)%nat →
  Forall (λ r, length r = k) (rows n k a) ∧ length (rows n k a) = n.
Proof.
  revert a. induction n as [|n IH]; intros a Ha; simpl; [done|].
  destruct (IH (drop k a)) as [Hall Hlen].
  { rewrite length_drop. lia. }
  split; [|by rewrite Hlen]. constructor; [|done].
  rewrite length_take. lia.
Qed.

Lemma reshape_ok {A} (a : list A) (k : nat) (rs : list (list A)) :
  k ≠ 0%nat → reshape a k = Ok rs →
  Forall (λ r, length r = k) rs ∧ (length rs * k)%nat = length a.
Proof.
  intros Hk. unfold reshape.
  destruct (Nat.eqb_spec (length a mod k) 0) as [Hmod|]; [|done].
  intros [= <-].
  assert (Hlen : length a = (length a / k * k)%nat).
  { pose proof (Nat.div_mod_eq (length a) k). lia. }
  destruct (rows_lengths (length a / k) k a Hlen) as [Hall Hn].
  split; [done|]. rewrite Hn. lia.
Qed.

(** X13: whatever the outcome, no file other than the destination is
    touched, and when the export raises the destination is not written
    either. *)
Theorem save_mesh_obj_frame
    (mesh : PolyData) (dest : string) (fs fs' : gmap string Trimesh)
    (r : result ()) :
  save_mesh_obj mesh dest fs = (r, fs') →
  (∀ path, path ≠ dest → fs' !! path = fs !! path) ∧
  (∀ e, r = Raise e → fs' = fs).
Proof.
  unfold save_mesh_obj, lift, export_mesh, mbind, io_bind.
  destruct (cells mesh !! 0%nat) as [c|]; [|by intros [= <- <-]].
  destruct (cell_type c);
    [destruct (reshape (faces mesh) 4) as [rs|e']
    |destruct (reshape (faces mesh) 5) as [rs|e']|];
    intros [= <- <-]; split; try done;
    intros path Hpath; by rewrite lookup_insert_ne.
Qed.


(** X15: the export fails, and stores nothing, on a mesh without cells
    (IndexError) and on a mesh whose flat faces array cannot be cut into
    records of the first cell's size (ValueError), as for a triangle followed
    by a quad. *)
Theorem save_mesh_obj_errors
    (mesh : PolyData) (dest : string) (fs : gmap string Trimesh) :
  (cells mesh = [] → save_mesh_obj mesh dest fs = (Raise IndexError, fs)) ∧
  (∀ c k, cells mesh !! 0%nat = Some c →
     (cell_type c = TRIANGLE ∧ k = 4%nat ∨ cell_type c = QUAD ∧ k = 5%nat) →
     length (faces mesh) mod k ≠ 0%nat →
     save_mesh_obj mesh dest fs
     = (Raise (ValueError "cannot reshape array"), fs)).
Proof.
  unfold save_mesh_obj, lift, export_mesh, mbind, io_bind. split.
  - by intros ->.
  - intros c k -> [[-> ->]|[-> ->]] Hmod; unfold reshape.
    + by destruct (Nat.eqb_spec (length (faces mesh) mod 4) 0).
    + by destruct (Nat.eqb_spec (length (faces mesh) mod 5) 0).
Qed.

(** * Further properties of display.py *)

Lemma skip_lines_short (n : nat) (file : list string) :
  (length file < n)%nat → skip_lines n file = Raise StopIteration.
Proof.
  revert file. induction n as [|n IH]; intros file Hlen; [lia|].
  destruct file as [|l file]; simpl; [done|]. apply IH. simpl in Hlen. lia.
Qed.

Lemma skip_lines_length (n : nat) (file file' : list string) :
  skip_lines n file = Ok file' → length file = (n + length file')%nat.
Proof.
  revert file. induction n as [|n IH]; intros file; simpl.
  - by intros [= ->].
  - destruct file as [|l file]; [done|]. intros Hskip%IH. simpl. lia.
Qed.

Lemma read_lines_app float column good values rest time coeff :
  Forall2 (row_reads float column) good values →
  read_lines float column (good ++ rest) time coeff
  = read_lines float column rest (time ++ values.*1) (coeff ++ values.*2).
Proof.
  intros Hgood. revert time coeff.
  induction Hgood as [|line v good values (s0 & sc & H0 & Ht & Hc & Hv) _ IH];
    intros time coeff; simpl.
  - by rewrite !app_nil_r.
  - unfold index, py_float. rewrite H0; simpl. rewrite Ht; simpl.
    rewrite Hc; simpl. rewrite Hv; simpl.
    rewrite IH. by rewrite <- !app_assoc.
Qed.

Lemma read_lines_lengths float column file time coeff t c :
  read_lines float column file time coeff = Ok (t, c) →
  length t = (length time + length file)%nat ∧
  length c = (length coeff + length file)%nat.
Proof.
  revert time coeff. induction file as [|line file IH]; intros time coeff; simpl.
  - intros [= <- <-]. lia.
  - destruct (index (split line) 0 ≫= py_float float) as [x|]; [|done]. simpl.
    destruct (index (split line) column ≫= py_float float) as [y|]; [|done].
    simpl. intros [Ht Hc]%IH. rewrite length_app in Ht, Hc. simpl in *. lia.
Qed.

(** X16: a file with fewer than nine lines is opened, then the header loop
    runs out of lines: StopIteration, and nothing is plotted. *)
Theorem plot_force_coefficients_short_file
    (float : string → option Q) (fs : gmap string (list string))
    (path name : string) (column : nat) (file : list string)
    (log : list event) :
  fs !! path = Some file →
  coeffs_map !! lower name = Some column →
  (length file < 9)%nat →
  plot_force_coefficients float fs path name log
  = (Raise StopIteration, log ++ [Open path]).
Proof.
  intros Hfile Hcol Hlen.
  unfold plot_force_coefficients, open, lift, mbind, io_bind.
  by rewrite Hcol, Hfile, skip_lines_short.
Qed.

(** X17: the curve is plotted only when everything was read: a failing
    call leaves at most the opening of the file behind, and a successful one
    opens the file and plots one time and one value per line after the
    ninth. *)
Theorem plot_force_coefficients_outcomes
    (float : string → option Q) (fs : gmap string (list string))
    (path name : string) (log log' : list event) (r : result ()) :
  plot_force_coefficients float fs path name log = (r, log') →
  match r with
  | Raise _ => log' = log ∨ log' = log ++ [Open path]
  | Ok _ =>
    ∃ (file : list string) (time coeff : list Q),
      fs !! path = Some file ∧
      log' = log ++ [Open path; Plot time coeff (lower name)] ∧
      length time = length coeff ∧
      (length time + 9)%nat = length file
  end.
Proof.
  unfold plot_force_coefficients, open, lift, plt_plot, mbind, io_bind.
  destruct (coeffs_map !! lower name) as [column|];
    [|intros [= <- <-]; by left].
  destruct (fs !! path) as [file|] eqn:Hfile; [|intros [= <- <-]; by left].
  destruct (skip_lines 9 file) as [file'|e] eqn:Hskip;
    [|intros [= <- <-]; by right].
  destruct (read_lines float column file' [] []) as [[time coeff]|e] eqn:Hread;
    [|intros [= <- <-]; by right].
  intros [= <- <-].
  apply skip_lines_length in Hskip. apply read_lines_lengths in Hread.
  exists file, time, coeff. rewrite <- app_assoc. simpl in *.
  repeat split; lia.
Qed.

(** X18: with a valid coefficient name and no file at the path the call
    raises FileNotFoundError and does nothing else. *)
Theorem plot_force_coefficients_missing_file
    (float : string → option Q) (fs : gmap string (list string))
    (path name : string) (column : nat) (log : list event) :
  coeffs_map !! lower name = Some column →
  fs !! path = None →
  plot_force_coefficients float fs path name log
  = (Raise FileNotFoundError, log).
Proof.
  intros Hcol Hfile.
  unfold plot_force_coefficients, open, lift, mbind, io_bind.
  by rewrite Hcol, Hfile.
Qed.

(** X19: the first row that cannot be read decides the error and nothing
    is plotted: a blank row or a row without the coefficient's column gives
    IndexError, a column that is not a number gives ValueError. *)
Theorem plot_force_coefficients_malformed_row
    (float : string → option Q) (fs : gmap string (list string))
    (path name : string) (column : nat)
    (header good rest : list string) (bad : string)
    (values : list (Q * Q)) (log : list event) :
  fs !! path = Some (header ++ good ++ bad :: rest) →
  length header = 9%nat →
  coeffs_map !! lower name = Some column →
  Forall2 (row_reads float column) good values →
  let run := plot_force_coefficients float fs path name log in
  (split bad !! 0%nat = None → run = (Raise IndexError, log ++ [Open path])) ∧
  (∀ s0, split bad !! 0%nat = Some s0 → float s0 = None →
     run = (Raise (ValueError (could_not_convert s0)), log ++ [Open path])) ∧
  (∀ s0 t, split bad !! 0%nat = Some s0 → float s0 = Some t →
     split bad !! column = None →
     run = (Raise IndexError, log ++ [Open path])) ∧
  (∀ s0 t sc, split bad !! 0%nat = Some s0 → float s0 = Some t →
     split bad !! column = Some sc → float sc = None →
     run = (Raise (ValueError (could_not_convert sc)), log ++ [Open path])).
Proof.
  intros Hfile Hlen Hcol Hgood run. unfold run.
  unfold plot_force_coefficients, open, lift, mbind, io_bind.
  rewrite Hcol, Hfile. rewrite <- Hlen, skip_lines_app.
  rewrite (read_lines_app _ _ _ values) by done. simpl.
  unfold index, py_float. repeat split.
  - by intros ->.
  - intros s0 -> Hs0. simpl. by rewrite Hs0.
  - intros s0 t -> Hs0 Hc. simpl. rewrite Hs0. simpl. by rewrite Hc.
  - intros s0 t sc -> Hs0 -> Hsc. simpl. rewrite Hs0. simpl. by rewrite Hsc.
Qed.

(** X20: the overlay reads the five capitalised keys only: a missing key
    shows like a zero coefficient, and any other key, such as the
    lower-case names accepted by [plot_force_coefficients], is ignored. *)
Theorem add_force_coefficients_keys
    (format_3f : Q → string) (coefficients : gmap string Q)
    (font_size : nat) (color position : string) (key : string) (v : Q) :
  (key ∈ force_coefficient_keys → coefficients !! key = None →
   add_force_coefficients format_3f (<[key := 0]> coefficients)
     font_size color position
   = add_force_coefficients format_3f coefficients font_size color position) ∧
  (key ∉ force_coefficient_keys →
   add_force_coefficients format_3f (<[key := v]> coefficients)
     font_size color position
   = add_force_coefficients format_3f coefficients font_size color position).
Proof.
  unfold add_force_coefficients, force_coefficient_keys. split.
  - rewrite !elem_of_cons, elem_of_nil.
    intros [->|[->|[->|[->|[->|[]]]]]] Hnone;
      rewrite !lookup_insert; repeat case_decide; try done;
      by rewrite Hnone.
  - rewrite !not_elem_of_cons. intros (? & ? & ? & ? & ? & _).
    by rewrite !lookup_insert_ne.
Qed.

(** * Properties of gitRun.py *)

Lemma sweep_loop (n i : nat) (s : script_state) :
  let s' := foldl sweep_body s (seq i n) in
  alpha s' = (alpha s + Z.of_nat n)%Z ∧
  tasks s' = tasks s ∧
  angles_of_attack (trace s')
  = angles_of_attack (trace s) ++ ((λ k, alpha s + Z.of_nat k)%Z <$> seq 0 n) ∧
  submitted_tasks (trace s') = submitted_tasks (trace s) ++ seq i n ∧
  filter (λ c, touches_results c = true) (trace s')
  = filter (λ c, touches_results c = true) (trace s).
Proof.
  revert i s. induction n as [|n IH]; intros i s; simpl.
  - rewrite !app_nil_r. repeat split; lia.
  - destruct (IH (S i) (sweep_body s i)) as (Ha & Ht & Hang & Hsub & Hres).
    rewrite Ha, Ht, Hang, Hsub, Hres. simpl.
    unfold angles_of_attack, submitted_tasks.
    rewrite !omap_app, filter_app. simpl.
    rewrite app_nil_r, <- !app_assoc. simpl.
    repeat split; [lia|].
    do 2 f_equal. rewrite Z.add_0_r. f_equal.
    rewrite <- (fmap_S_seq 0), <- list_fmap_compose.
    apply list_fmap_ext. intros _ k _. simpl. lia.
Qed.

(** X21: the sweep sets one object per run, with the angles of attack
    first_alpha, first_alpha + 1, ... in this order, and submits one
    simulation per run; the script as it stands covers -20 .. 20. *)
Theorem gitRun_sweeps_angles (DATASET_SIZE : nat) (first_alpha : Z) :
  angles_of_attack (trace (gitRun DATASET_SIZE first_alpha))
  = (λ k, first_alpha + Z.of_nat k)%Z <$> seq 0 DATASET_SIZE ∧
  submitted_tasks (trace (gitRun DATASET_SIZE first_alpha))
  = seq 0 DATASET_SIZE ∧
  angles_of_attack (trace gitRun_script) = seqZ (-20) 41.
Proof.
  assert (Hgen : ∀ n a,
    angles_of_attack (trace (gitRun n a))
    = (λ k, a + Z.of_nat k)%Z <$> seq 0 n ∧
    submitted_tasks (trace (gitRun n a)) = seq 0 n).
  { intros n a. unfold gitRun.
    set (s0 := {| alpha := a; tasks := []; trace := _ |}).
    destruct (sweep_loop n 0 s0) as (_ & Ht & Hang & Hsub & _).
    simpl in Ht. rewrite Ht. simpl.
    unfold angles_of_attack, submitted_tasks in *.
    rewrite !omap_app, Hang, Hsub. simpl. by rewrite !app_nil_r. }
  split; [apply Hgen|]. split; [apply Hgen|].
  unfold gitRun_script. rewrite (proj1 (Hgen _ _)). reflexivity.
Qed.

(** X22: the list [tasks] is never appended to, so the closing loop over
    it does not run: no output is fetched and no angle-of-attack metadata is
    set, however many runs there are. *)
Theorem gitRun_never_collects_results (DATASET_SIZE : nat) (first_alpha : Z) :
  tasks (gitRun DATASET_SIZE first_alpha) = [] ∧
  Forall (λ c, touches_results c = false)
    (trace (gitRun DATASET_SIZE first_alpha)).
Proof.
  unfold gitRun.
  set (s0 := {| alpha := first_alpha; tasks := []; trace := _ |}).
  destruct (sweep_loop DATASET_SIZE 0 s0) as (_ & Ht & _ & _ & Hres).
  simpl in Ht. rewrite Ht. simpl. split; [done|].
  apply Forall_app. split; [|by repeat constructor].
  apply Forall_forall. intros c Hc.
  destruct (touches_results c) eqn:E; [|done].
  assert (Hin : c ∈ filter (λ c, touches_results c = true)
                      (trace (foldl sweep_body s0 (seq 0 DATASET_SIZE)))).
  { by apply list_elem_of_filter. }
  rewrite Hres in Hin. simpl in Hin.
  rewrite filter_cons_False, filter_cons_False, filter_nil in Hin by done.
  by apply elem_of_nil in Hin.
Qed.

(** ** The further properties on the sample inputs *)

Lemma normalize_plate :
  _get_scaling_factor plate (10, 2, 1) = Raise ZeroDivisionError ∧
  ∀ (h : heap) (mesh : loc), h !! mesh = Some plate →
    normalize_mesh mesh (10, 2, 1) h = (Raise ZeroDivisionError, h).
Proof.
  apply (normalize_mesh_flat_mesh plate (10, 2, 1)).
  right; right. reflexivity.
Defined.







Lemma brick_length :
  (2 : Q) - 0 <= compute_object_length brick ∧ 0 <= compute_object_length brick.
Proof.
  apply (object_length_bounds_x_distances brick (2, 0, 0) (0, 0, 0));
    apply list_elem_of_In; simpl; auto.
Defined.


Lemma lower_case_plane_refused :
  @compute_projected_area fan_filters lattice_shapely brick "x"
  = Raise (ValueError "Invalid projection plane. Choose from 'X', 'Y', 'Z'.").
Proof.
  apply (@compute_projected_area_invalid_plane fan_filters lattice_shapely).
  rewrite !not_elem_of_cons. repeat split; try discriminate.
  apply not_elem_of_nil.
Defined.

Lemma no_cells_no_area :
  @compute_projected_area fan_filters lattice_shapely no_points "Z"
  = Raise ZeroDivisionError.
Proof.
  apply (@compute_projected_area_no_cells fan_filters lattice_shapely);
    [|reflexivity].
  apply list_elem_of_In. simpl. auto.
Defined.

Lemma brick_projection_along_y :
  Forall2 (λ a b : Q * Q, a.1 == b.1 ∧ a.2 == b.2)
    (columns (0, 2)%nat (points (project_points_to_plane (0, 1, 0) brick)))
    (columns (0, 2)%nat (points brick)) ∧
  Forall (λ p, dot (0, 1, 0) p == 0)
    (points (project_points_to_plane (0, 1, 0) brick)).
Proof.
  apply (projection_keeps_retained_coordinates brick "Y"). reflexivity.
Defined.

Lemma brick_export_frame :
  let fs' : gmap string Trimesh :=
    {[ "brick.obj" := {| vertices := points brick; tm_faces := cells brick |} ]} in
  (∀ path, path ≠ "brick.obj" → fs' !! path = (∅ : gmap string Trimesh) !! path) ∧
  (∀ e, (Ok () : result ()) = Raise e → fs' = ∅).
Proof.
  apply (save_mesh_obj_frame brick "brick.obj" ∅ _ (Ok ())). reflexivity.
Defined.


Lemma save_triangle_and_quad :
  save_mesh_obj triangle_and_quad "out.obj" ∅
  = (Raise (ValueError "cannot reshape array"), ∅).
Proof.
  apply (proj2 (save_mesh_obj_errors triangle_and_quad "out.obj" ∅)
           [0; 1; 2]%nat 4%nat); [reflexivity|by left|discriminate].
Defined.

Lemma plot_short_file :
  plot_force_coefficients decimal_float short_file "forceCoeffs.dat" "Lift" []
  = (Raise StopIteration, [Open "forceCoeffs.dat"]).
Proof.
  apply (plot_force_coefficients_short_file decimal_float short_file
           "forceCoeffs.dat" "Lift" 3
           ["# Force coefficients"; "0.1 0.0 1.2 0.5 0.3 0.2"] []);
    [reflexivity|reflexivity|].
  simpl. lia.
Defined.

Lemma plot_sample_file_outcome :
  ∃ (file : list string) (time coeff : list Q),
    sample_files !! "forceCoeffs.dat" = Some file ∧
    [Open "forceCoeffs.dat"; Plot [1 # 10] [5 # 10] "lift"]
    = [] ++ [Open "forceCoeffs.dat"; Plot time coeff (lower "LIFT")] ∧
    length time = length coeff ∧
    (length time + 9)%nat = length file.
Proof.
  apply (plot_force_coefficients_outcomes decimal_float sample_files
           "forceCoeffs.dat" "LIFT" [] _ (Ok ())).
  reflexivity.
Defined.

Lemma plot_missing_file :
  plot_force_coefficients decimal_float ∅ "forceCoeffs.dat" "Moment" []
  = (Raise FileNotFoundError, []).
Proof.
  apply (plot_force_coefficients_missing_file decimal_float ∅
           "forceCoeffs.dat" "Moment" 1); reflexivity.
Defined.

Lemma plot_blank_row :
  plot_force_coefficients decimal_float blank_row_file "forceCoeffs.dat"
    "Drag" []
  = (Raise IndexError, [Open "forceCoeffs.dat"]).
Proof.
  apply (plot_force_coefficients_malformed_row decimal_float blank_row_file
           "forceCoeffs.dat" "Drag" 2 header9 ["0.1 0.0 1.2 0.5 0.3 0.2"] []
           "" [(1 # 10, 12 # 10)] []); try reflexivity.
  repeat constructor. by exists "0.1", "1.2".
Defined.

Lemma overlay_ignores_lower_case_key :
  add_force_coefficients (λ _, "0.000") (<["drag" := 1 # 2]> ∅) 12 "black"
    "upper_right"
  = add_force_coefficients (λ _, "0.000") ∅ 12 "black" "upper_right".
Proof.
  apply (add_force_coefficients_keys (λ _, "0.000") ∅ 12 "black"
           "upper_right" "drag" (1 # 2)).
  unfold force_coefficient_keys. rewrite !not_elem_of_cons.
  repeat split; try discriminate. apply not_elem_of_nil.
Defined.
